(** * auto-brand-logos/fetch_logos.py: a shallow embedding and its properties

    The script resolves brand names to Wikidata items, fetches the logo
    (property P154) of the item from Wikimedia Commons, normalises it to a
    128x128 RGBA canvas and writes one PNG per brand.

    Modelling choices.
    - A Python [str] is a list of Unicode code points ([list N]); [bytes] is a
      list of byte values.
    - A value decoded from JSON is a [json]; Python's dynamic operations on it
      ([.get], [in], indexing, iteration, truth value) are written out with
      the exception each one raises on a value of the wrong shape.
    - Effects (file system, network, console) are events appended to a
      history; what the outside world answers, an exception included, is an
      oracle that may depend on the whole history so far.  An exception keeps the history: the monad is
      [hist -> result A * hist].
    - Pure library functions whose text is not part of the script (str(),
      urllib.parse.quote, the image decoder, the resampling filter, the alpha
      blend, float rounding) are the fields of the class [PyLib], with the laws
      their documentation states. *)

From Stdlib Require Import ZArith NArith QArith Qabs Qround List Bool Lia Lqa String Ascii.
From Stdlib Require DecimalString.
Import ListNotations.
Open Scope string_scope.
Open Scope list_scope.
Open Scope Z_scope.

(** ** Python strings *)

Definition str := list N.
Definition bytes := list N.

Definition lit (s : string) : str :=
  map N_of_ascii (list_ascii_of_string s).

Definition N_in_range (lo hi c : N) : bool := (N.leb lo c && N.leb c hi)%bool.

(** [str.isspace] on one code point (CPython's _PyUnicode_IsWhitespace). *)
Definition py_isspace (c : N) : bool :=
  (N_in_range 9 13 c || N_in_range 28 32 c || N.eqb c 133 || N.eqb c 160
   || N.eqb c 5760 || N_in_range 8192 8202 c || N.eqb c 8232 || N.eqb c 8233
   || N.eqb c 8239 || N.eqb c 8287 || N.eqb c 12288)%bool.

Fixpoint lstrip (s : str) : str :=
  match s with
  | [] => []
  | c :: rest => if py_isspace c then lstrip rest else s
  end.

Definition rstrip (s : str) : str := rev (lstrip (rev s)).

(** [str.strip()] with no argument. *)
Definition strip (s : str) : str := rstrip (lstrip s).

Definition startswith (s : str) (c : N) : bool :=
  match s with
  | [] => false
  | x :: _ => N.eqb x c
  end.

Definition str_truthy (s : str) : bool :=
  match s with [] => false | _ => true end.

Fixpoint str_eqb (a b : str) : bool :=
  match a, b with
  | [], [] => true
  | x :: a', y :: b' => (N.eqb x y && str_eqb a' b')%bool
  | _, _ => false
  end.

Fixpoint is_prefix (p s : str) : bool :=
  match p, s with
  | [], _ => true
  | x :: p', y :: s' => (N.eqb x y && is_prefix p' s')%bool
  | _ :: _, [] => false
  end.

(** [p in s] for two strings. *)
Fixpoint is_substring (p s : str) : bool :=
  (is_prefix p s ||
   match s with
   | [] => false
   | _ :: s' => is_substring p s'
   end)%bool.

(** Decimal text of an integer, as [str(n)] and f-strings print it. *)
Definition py_str_int (n : Z) : str :=
  lit (DecimalString.NilZero.string_of_int (Z.to_int n)).

(** ** sanitize_filename *)

(** SAFE_FILENAME_PATTERN, a one-character class: backslash (92), slash (47),
    colon (58), star (42), question mark (63), double quote (34), less-than
    (60), greater-than (62) and vertical bar (124). *)
Definition SAFE_FILENAME_PATTERN (c : N) : bool :=
  (N.eqb c 92 || N.eqb c 47 || N.eqb c 58 || N.eqb c 42 || N.eqb c 63
   || N.eqb c 34 || N.eqb c 60 || N.eqb c 62 || N.eqb c 124)%bool.

Definition underscore : N := 95.

(** [pattern.sub] with an underscore as replacement, for a one-character
    class. *)
Definition re_sub_underscore (name : str) : str :=
  map (fun c => if SAFE_FILENAME_PATTERN c then underscore else c) name.

Definition sanitize_filename (name : str) : str :=
  strip (re_sub_underscore name).

(** ** read_brands: the lines of a text file and the comprehension *)

(** The lines a text-mode file object yields (universal newlines: each of
    LF, CR LF and CR ends a line and is handed over as LF). *)
Fixpoint file_lines (text : str) : list str :=
  match text with
  | [] => []
  | c :: rest =>
      if N.eqb c 10 then [10%N] :: file_lines rest
      else if N.eqb c 13 then
        match rest with
        | d :: rest' =>
            if N.eqb d 10 then [10%N] :: file_lines rest'
            else [10%N] :: file_lines rest
        | [] => [[10%N]]
        end
      else
        match file_lines rest with
        | [] => [[c]]
        | l :: ls => (c :: l) :: ls
        end
  end.

(** The comprehension: line.strip() for line in f if line.strip() and not
    line.strip().startswith(hash), where the hash sign is code point 35. *)
Fixpoint brands_of_lines (lines : list str) : list str :=
  match lines with
  | [] => []
  | line :: more =>
      if (str_truthy (strip line) && negb (startswith (strip line) 35))%bool
      then strip line :: brands_of_lines more
      else brands_of_lines more
  end.

(** ** Values decoded from JSON, and Python's operations on them *)

#[local] Unset Elimination Schemes.
Inductive json : Type :=
| JNull
| JBool (b : bool)
| JInt (n : Z)
| JFloat (q : Q)
| JStr (s : str)
| JArr (items : list json)
| JObj (fields : list (str * json)).
#[local] Set Elimination Schemes.

(** An instance of [Exception]: its class name and [str(e)]. Exceptions
    outside the [Exception] hierarchy (KeyboardInterrupt, SystemExit) are
    not raised by any operation of the script and are not modelled. *)
Inductive exn : Type := Exception (cls : string) (msg : str).

Definition exn_str (e : exn) : str := let (_, m) := e in m.

Inductive result (A : Type) : Type :=
| Ok (a : A)
| Raise (e : exn).
Arguments Ok {A} a.
Arguments Raise {A} e.

Definition type_name (v : json) : string :=
  match v with
  | JNull => "NoneType" | JBool _ => "bool" | JInt _ => "int"
  | JFloat _ => "float" | JStr _ => "str" | JArr _ => "list" | JObj _ => "dict"
  end.

Definition TypeError (parts : list string) : exn :=
  Exception "TypeError" (lit (String.concat "" parts)).

(** Truth value of a decoded JSON value ([if v], [if not v]). *)
Definition truthy (v : json) : bool :=
  match v with
  | JNull => false
  | JBool b => b
  | JInt n => negb (n =? 0)
  | JFloat q => negb (Qeq_bool q 0)
  | JStr s => str_truthy s
  | JArr l => match l with [] => false | _ => true end
  | JObj f => match f with [] => false | _ => true end
  end.

Fixpoint dict_lookup (k : str) (fields : list (str * json)) : option json :=
  match fields with
  | [] => None
  | (k', v) :: rest => if str_eqb k' k then Some v else dict_lookup k rest
  end.

(** [v.get(k, default)] *)
Definition py_get (v : json) (k : string) (default : json) : result json :=
  match v with
  | JObj f => Ok (match dict_lookup (lit k) f with Some x => x | None => default end)
  | _ => Raise (Exception "AttributeError"
           (lit (String.concat "" ["'"; type_name v; "' object has no attribute 'get'"])))
  end.

(** [k in v] for a string k *)
Definition py_in (k : string) (v : json) : result bool :=
  match v with
  | JObj f => Ok (match dict_lookup (lit k) f with Some _ => true | None => false end)
  | JArr l => Ok (existsb (fun x => match x with JStr s => str_eqb s (lit k) | _ => false end) l)
  | JStr s => Ok (is_substring (lit k) s)
  | _ => Raise (TypeError ["argument of type '"; type_name v; "' is not iterable"])
  end.

(** [v[k]] for a string k *)
Definition py_getitem (v : json) (k : string) : result json :=
  match v with
  | JObj f =>
      match dict_lookup (lit k) f with
      | Some x => Ok x
      | None => Raise (Exception "KeyError" (lit (String.concat "" ["'"; k; "'"])))
      end
  | JArr _ => Raise (TypeError ["list indices must be integers or slices, not str"])
  | JStr _ => Raise (TypeError ["string indices must be integers, not 'str'"])
  | _ => Raise (TypeError ["'"; type_name v; "' object is not subscriptable"])
  end.

(** [v[0]] *)
Definition py_getitem0 (v : json) : result json :=
  match v with
  | JArr (x :: _) => Ok x
  | JArr [] => Raise (Exception "IndexError" (lit "list index out of range"))
  | JStr (c :: _) => Ok (JStr [c])
  | JStr [] => Raise (Exception "IndexError" (lit "string index out of range"))
  | JObj _ => Raise (Exception "KeyError" (lit "0"))
  | _ => Raise (TypeError ["'"; type_name v; "' object is not subscriptable"])
  end.

(** The items [for entry in v] runs through. *)
Definition py_iter (v : json) : result (list json) :=
  match v with
  | JArr l => Ok l
  | JObj f => Ok (map (fun kv => JStr (fst kv)) f)
  | JStr s => Ok (map (fun c => JStr [c]) s)
  | _ => Raise (TypeError ["'"; type_name v; "' object is not iterable"])
  end.

(** ** Images *)

Record rgba : Type := RGBA { red : Z; green : Z; blue : Z; alpha : Z }.

(** A decoded raster in mode RGBA: its size and the pixel at column x, row y. *)
Record image : Type := Image { width : Z; height : Z; pixel : Z -> Z -> rgba }.

(** ** Library functions the script calls *)

Class PyLib : Type := {
  (** str(v), as an f-string formats a value *)
  py_str : json -> str;
  py_str_JStr : forall s, py_str (JStr s) = s;
  (** urllib.parse.quote(v) *)
  url_quote : json -> result str;
  (** Image.open(io.BytesIO(b)).convert(RGBA) *)
  image_open_rgba : bytes -> result image;
  (** round(x) on the float nearest to a quotient that is not negative: an
      integer at most one half above it and less than one below it *)
  py_round : Q -> Z;
  py_round_near : forall q, (0 <= q)%Q ->
    (inject_Z (py_round q) - q <= 1 # 2)%Q /\ (q - inject_Z (py_round q) < 1)%Q;
  (** the LANCZOS filter: the pixel at (x, y) of an image resampled to w by h *)
  resample : image -> Z -> Z -> Z -> Z -> rgba;
  (** paste under a mask value: Pillow documents that where the mask is 255
      the given image is copied as is and where it is 0 the current value is
      preserved *)
  blend : rgba -> rgba -> Z -> rgba;
  blend_0 : forall dst src, blend dst src 0 = dst;
  blend_255 : forall dst src, blend dst src 255 = src;
  (** what Image.resize does with a size that has a side of zero pixels: the
      script pins no release of Pillow, and the releases differ: up to 12.3
      the resizer raises ValueError (true here), from 13.0 on it returns an
      empty image (false here) *)
  resize_refuses_empty : bool
}.

(** ** Events, the environment and the effect monad *)

Inductive event : Type :=
| EvMkdir (path : str)                       (* Path.mkdir(parents, exist_ok) *)
| EvOpen (path : str)                        (* path.open, read as text *)
| EvApi (params : list (string * json))      (* SESSION.get(WIKIDATA_API, params, timeout=20) *)
| EvGet (url : str)                          (* SESSION.get(url, timeout=30) *)
| EvSave (path : str) (img : image)          (* img.save(path, format=PNG) *)
| EvPrint (line : str).                      (* print(line) *)

Definition hist := list event.

(** What the outside world answers, given everything that happened before. *)
Record Env : Type := {
  script_dir : str;                                            (* Path(__file__).parent *)
  fs_mkdir : hist -> str -> result unit;
  fs_read_text : hist -> str -> result str;
  (** get, raise_for_status and r.json() of one API request *)
  api_json : hist -> list (string * json) -> result json;
  (** get, raise_for_status and r.content of one download *)
  http_content : hist -> str -> result bytes;
  image_save : hist -> str -> image -> result unit;
  (** print(line): encoding the line for stdout and writing it can raise
      (UnicodeEncodeError, OSError) *)
  console_print : hist -> str -> result unit
}.

Definition M (A : Type) : Type := hist -> result A * hist.

Definition ret {A} (a : A) : M A := fun h => (Ok a, h).

Definition bind {A B} (m : M A) (k : A -> M B) : M B :=
  fun h =>
    match m h with
    | (Ok a, h') => k a h'
    | (Raise e, h') => (Raise e, h')
    end.

Definition lift {A} (r : result A) : M A := fun h => (r, h).

(** try: body / except Exception as e: handler e *)
Definition try_except {A} (body : M A) (handler : exn -> M A) : M A :=
  fun h =>
    match body h with
    | (Ok a, h') => (Ok a, h')
    | (Raise e, h') => handler e h'
    end.

(** One interaction with the world: the oracle answers from the history so
    far, and the event is recorded whether or not the call raised. *)
Definition perform {A} (ev : event) (answer : hist -> result A) : M A :=
  fun h => (answer h, h ++ [ev]).

Declare Scope py_scope.
Notation "x <- m ;; k" := (bind m (fun x => k))
  (at level 61, m at next level, right associativity) : py_scope.
Notation "m ;;; k" := (bind m (fun _ => k))
  (at level 61, right associativity) : py_scope.
Open Scope py_scope.

(** ** The script *)

Definition path_join (dir name : str) : str := dir ++ lit "/" ++ name.

Definition COMMONS_THUMB (filename : str) (w : Z) : str :=
  lit "https://commons.wikimedia.org/w/thumb.php?f=" ++ filename
  ++ lit "&w=" ++ py_str_int w.

Definition COMMONS_FILEPATH (filename : str) : str :=
  lit "https://commons.wikimedia.org/wiki/Special:FilePath/" ++ filename.

(** [[entry.get(id) for entry in entries if entry.get(id)]] *)
Fixpoint candidate_ids (entries : list json) : result (list json) :=
  match entries with
  | [] => Ok []
  | entry :: more =>
      match py_get entry "id" JNull with
      | Raise e => Raise e
      | Ok test =>
          if truthy test then
            match py_get entry "id" JNull with
            | Raise e => Raise e
            | Ok qid =>
                match candidate_ids more with
                | Raise e => Raise e
                | Ok ids => Ok (qid :: ids)
                end
            end
          else candidate_ids more
      end
  end.

(** The params dictionary of wikidata_get_logo_filename. *)
Definition claims_params (qid : json) : list (string * json) :=
  [("action", JStr (lit "wbgetclaims")); ("entity", qid);
   ("property", JStr (lit "P154")); ("format", JStr (lit "json"))].

(** The params dictionary of wikidata_search_candidates. *)
Definition search_params (name language : str) (limit : Z) : list (string * json) :=
  [("action", JStr (lit "wbsearchentities")); ("search", JStr name);
   ("language", JStr language); ("type", JStr (lit "item"));
   ("limit", JInt limit); ("format", JStr (lit "json"))].

Definition transparent : rgba := RGBA 0 0 0 0.

(** Image.new(RGBA, size, color) *)
Definition Image_new (size : Z * Z) (color : rgba) : image :=
  Image (fst size) (snd size) (fun _ _ => color).

Section Script.

Context (env : Env) {lib : PyLib}.

Definition BRANDS_FILE : str := path_join (script_dir env) (lit "brands_tr.txt").
Definition OUTPUT_DIR : str := path_join (script_dir env) (lit "logos").

Definition api_get (params : list (string * json)) : M json :=
  perform (EvApi params) (fun h => api_json env h params).

Definition session_get (url : str) : M bytes :=
  perform (EvGet url) (fun h => http_content env h url).

Definition print (line : str) : M unit :=
  perform (EvPrint line) (fun h => console_print env h line).

Definition read_brands (path : str) : M (list str) :=
  text <- perform (EvOpen path) (fun h => fs_read_text env h path) ;;
  ret (brands_of_lines (file_lines text)).

Definition wikidata_get_logo_filename (qid : json) : M json :=
  let params := claims_params qid in
  r_json <- api_get params ;;
  claims <- lift (py_get r_json "claims" (JObj [])) ;;
  present <- lift (py_in "P154" claims) ;;
  if negb present then ret JNull
  else
    try_except
      (p154 <- lift (py_getitem claims "P154") ;;
       first <- lift (py_getitem0 p154) ;;
       mainsnak <- lift (py_getitem first "mainsnak") ;;
       datavalue <- lift (py_getitem mainsnak "datavalue") ;;
       filename <- lift (py_getitem datavalue "value") ;;
       ret filename)
      (fun _ => ret JNull).

Definition wikidata_search_candidates (name language : str) (limit : Z) : M (list json) :=
  let params := search_params name language limit in
  r_json <- api_get params ;;
  search <- lift (py_get r_json "search" (JArr [])) ;;
  entries <- lift (py_iter search) ;;
  lift (candidate_ids entries).

(** First pass of the resolver: for qid in candidates: if
    wikidata_get_logo_filename(qid): return qid.  [Some qid] is that return,
    [None] is the loop running to its end. *)
Fixpoint first_with_logo (candidates : list json) : M (option json) :=
  match candidates with
  | [] => ret None
  | qid :: more =>
      filename <- wikidata_get_logo_filename qid ;;
      if truthy filename then ret (Some qid) else first_with_logo more
  end.

(** The loop over the languages of wikidata_search_entity, from any point of
    the tuple on; [JNull] is the final [return None]. *)
Fixpoint search_langs (name : str) (langs : list str) : M json :=
  match langs with
  | [] => ret JNull
  | lang :: more =>
      candidates <- wikidata_search_candidates name lang 15 ;;
      found <- first_with_logo candidates ;;
      match found with
      | Some qid => ret qid
      | None =>
          match candidates with
          | first :: _ => ret first
          | [] => search_langs name more
          end
      end
  end.

Definition wikidata_search_entity (name : str) : M json :=
  search_langs name [lit "tr"; lit "en"].

Definition download_commons_raster (filename : json) : M (option bytes) :=
  quoted <- lift (url_quote filename) ;;
  let thumb_url := COMMONS_THUMB quoted 1024 in
  try_except
    (content <- session_get thumb_url ;; ret (Some content))
    (fun _ =>
       let file_url := COMMONS_FILEPATH quoted in
       try_except
         (content <- session_get file_url ;; ret (Some content))
         (fun _ => ret None)).

(** Image.resize(size, resample=LANCZOS): an image of the same size is
    copied; a size with a side below one pixel is refused or gives an empty
    image, as the release of the library has it (ImageOps.contain never asks
    for a negative side). *)
Definition Image_resize (img : image) (size : Z * Z) : result image :=
  if ((fst size =? width img) && (snd size =? height img))%bool then Ok img
  else if (((fst size <? 1) || (snd size <? 1)) && resize_refuses_empty)%bool then
    Raise (Exception "ValueError" (lit "height and width must be > 0"))
  else Ok (Image (fst size) (snd size) (resample img (fst size) (snd size))).

(** ImageOps.contain(image, size, method=LANCZOS).  The two ratios are kept
    as exact quotients; only the rounding of the scaled side goes through
    the library's [py_round]. *)
Definition ImageOps_contain (img : image) (size : Z * Z) : result image :=
  if height img =? 0 then Raise (Exception "ZeroDivisionError" (lit "division by zero"))
  else
    let im_ratio := (inject_Z (width img) / inject_Z (height img))%Q in
    let dest_ratio := (inject_Z (fst size) / inject_Z (snd size))%Q in
    let size' :=
      if negb (Qeq_bool im_ratio dest_ratio) then
        if negb (Qle_bool im_ratio dest_ratio) then      (* im_ratio > dest_ratio *)
          let new_height :=
            py_round (inject_Z (height img) / inject_Z (width img) * inject_Z (fst size))%Q in
          if negb (new_height =? snd size) then (fst size, new_height) else size
        else
          let new_width :=
            py_round (inject_Z (width img) / inject_Z (height img) * inject_Z (snd size))%Q in
          if negb (new_width =? fst size) then (new_width, snd size) else size
      else size in
    Image_resize img size'.

(** canvas.paste(img, offset, img): inside the box of the pasted image the
    canvas pixel is blended with the image pixel under the image's own
    alpha; elsewhere the canvas is untouched. *)
Definition Image_paste (canvas img : image) (offset : Z * Z) : image :=
  Image (width canvas) (height canvas)
    (fun x y =>
       let u := x - fst offset in
       let v := y - snd offset in
       if ((0 <=? u) && (u <? width img) && (0 <=? v) && (v <? height img))%bool
       then blend (pixel canvas x y) (pixel img u v) (alpha (pixel img u v))
       else pixel canvas x y).

Definition canvas_size : Z * Z := (128, 128).
Definition padding : Z := 8.
Definition max_w : Z := fst canvas_size - 2 * padding.
Definition max_h : Z := snd canvas_size - 2 * padding.

Definition paste_offset (img : image) : Z * Z :=
  ((fst canvas_size - width img) / 2, (snd canvas_size - height img) / 2).

Definition to_png_128 (img_bytes : bytes) : result (option image) :=
  match image_open_rgba img_bytes with
  | Raise _ => Ok None
  | Ok img =>
      match ImageOps_contain img (max_w, max_h) with
      | Raise e => Raise e
      | Ok img' =>
          let canvas := Image_new canvas_size transparent in
          let offset := paste_offset img' in
          Ok (Some (Image_paste canvas img' offset))
      end
  end.

Definition bytes_truthy (b : option bytes) : bool :=
  match b with
  | Some (_ :: _) => true
  | _ => false
  end.

Definition record : Type := str * bool * str.

Definition process_brand (brand : str) : M record :=
  try_except
    (qid <- wikidata_search_entity brand ;;
     if negb (truthy qid) then ret (brand, false, lit "No Wikidata item found")
     else
       filename <- wikidata_get_logo_filename qid ;;
       if negb (truthy filename)
       then ret (brand, false, lit "No logo (P154) for " ++ py_str qid)
       else
         img_bytes <- download_commons_raster filename ;;
         if negb (bytes_truthy img_bytes) then ret (brand, false, lit "Download failed")
         else
           img <- lift (to_png_128 (match img_bytes with Some b => b | None => [] end)) ;;
           match img with
           | None => ret (brand, false, lit "Conversion failed")
           | Some img =>
               let out_name := sanitize_filename brand ++ lit ".png" in
               let out_path := path_join OUTPUT_DIR out_name in
               perform (EvSave out_path img) (fun h => image_save env h out_path img) ;;;
               ret (brand, true, lit "OK")
           end)
    (fun e => ret (brand, false, lit "Error: " ++ exn_str e)).

Definition status_line (r : record) : str :=
  let '(b, success, msg) := r in
  let status := if success then lit "SUCCESS" else lit "FAIL" in
  lit "[" ++ status ++ lit "] " ++ b ++ lit ": " ++ msg.

Definition summary_line (ok fail : Z) : str :=
  lit "Done. Success: " ++ py_str_int ok ++ lit ", Fail: " ++ py_str_int fail.

(** The loop of main, with its two counters. *)
Fixpoint main_loop (brands : list str) (ok fail : Z) : M (Z * Z) :=
  match brands with
  | [] => ret (ok, fail)
  | brand :: more =>
      r <- process_brand brand ;;
      print (status_line r) ;;;
      if snd (fst r) then main_loop more (ok + 1) fail
      else main_loop more ok (fail + 1)
  end.

Definition main : M Z :=
  perform (EvMkdir OUTPUT_DIR) (fun h => fs_mkdir env h OUTPUT_DIR) ;;;
  brands <- read_brands BRANDS_FILE ;;
  counts <- main_loop brands 0 0 ;;
  let '(ok, fail) := counts in
  print (summary_line ok fail) ;;;
  ret (if ok >? 0 then 0 else 1).


End Script.

(** ** A reference library and sample worlds, for running the model *)

(** round(): to the nearest integer, a tie to the even one. *)
Definition round_half_even (q : Q) : Z :=
  let f := Qfloor q in
  match (q - inject_Z f ?= 1 # 2)%Q with
  | Lt => f
  | Gt => f + 1
  | Eq => if Z.even f then f else f + 1
  end.

Definition nearest_resample (img : image) (w h x y : Z) : rgba :=
  pixel img (x * width img / w) (y * height img / h).

Definition mix (dst src mask : Z) : Z := (src * mask + dst * (255 - mask)) / 255.

Definition mix_blend (dst src : rgba) (mask : Z) : rgba :=
  RGBA (mix (red dst) (red src) mask) (mix (green dst) (green src) mask)
       (mix (blue dst) (blue src) mask) (mix (alpha dst) (alpha src) mask).

(** str() of a scalar; containers and floats are not formatted faithfully
    (their repr is never needed by the examples below). *)
Definition ref_str (v : json) : str :=
  match v with
  | JStr s => s
  | JInt n => py_str_int n
  | JNull => lit "None"
  | JBool true => lit "True"
  | JBool false => lit "False"
  | JFloat _ => lit "<float>"
  | JArr _ => lit "<list>"
  | JObj _ => lit "<dict>"
  end.

Definition hex_digit (n : N) : N :=
  if N.ltb n 10 then (48 + n)%N else (55 + n)%N.

Definition percent (b : N) : str :=
  [37%N; hex_digit (N.div b 16); hex_digit (N.modulo b 16)].

(** The UTF-8 bytes of a code point; a surrogate has none. *)
Definition utf8 (c : N) : option (list N) :=
  if N.ltb c 128 then Some [c]
  else if N.ltb c 2048 then Some [(192 + N.div c 64)%N; (128 + N.modulo c 64)%N]
  else if (N.leb 55296 c && N.leb c 57343)%bool then None
  else if N.ltb c 65536 then
    Some [(224 + N.div c 4096)%N; (128 + N.modulo (N.div c 64) 64)%N; (128 + N.modulo c 64)%N]
  else
    Some [(240 + N.div c 262144)%N; (128 + N.modulo (N.div c 4096) 64)%N;
          (128 + N.modulo (N.div c 64) 64)%N; (128 + N.modulo c 64)%N].

(** Characters quote() leaves alone: letters, digits, underscore, dot,
    hyphen, tilde and the slash. *)
Definition quote_safe (c : N) : bool :=
  (N_in_range 65 90 c || N_in_range 97 122 c || N_in_range 48 57 c
   || N.eqb c 95 || N.eqb c 46 || N.eqb c 45 || N.eqb c 126 || N.eqb c 47)%bool.

Fixpoint quote_str (s : str) : result str :=
  match s with
  | [] => Ok []
  | c :: rest =>
      match utf8 c, quote_str rest with
      | None, _ =>
          Raise (Exception "UnicodeEncodeError" (lit "surrogates not allowed"))
      | _, Raise e => Raise e
      | Some bs, Ok q =>
          Ok ((if quote_safe c then [c] else flat_map percent bs) ++ q)
      end
  end.

Definition ref_quote (v : json) : result str :=
  match v with
  | JStr s => quote_str s
  | _ => if truthy v then Raise (TypeError ["quote_from_bytes() expected bytes"])
         else Ok (ref_str v)
  end.

(** A stand-in for the image decoder: eight bytes describe a raster of one
    flat colour, two bytes for each side (high byte first) and the four
    channels; anything else, or an empty raster, is not an image. *)
Definition flat_decoder (b : bytes) : result image :=
  match b with
  | [wh; wl; hh; hl; r; g; bl; a] =>
      let w := Z.of_N (wh * 256 + wl) in
      let h := Z.of_N (hh * 256 + hl) in
      if ((0 <? w) && (0 <? h))%bool
      then Ok (Image w h (fun _ _ => RGBA (Z.of_N r) (Z.of_N g) (Z.of_N bl) (Z.of_N a)))
      else Raise (Exception "UnidentifiedImageError" (lit "cannot identify image file"))
  | _ => Raise (Exception "UnidentifiedImageError" (lit "cannot identify image file"))
  end.

Lemma round_half_even_near (q : Q) :
  (0 <= q)%Q ->
  (inject_Z (round_half_even q) - q <= 1 # 2)%Q
  /\ (q - inject_Z (round_half_even q) < 1)%Q.
Proof.
  intros _. unfold round_half_even.
  pose proof (Qfloor_le q) as Hlo.
  pose proof (Qlt_floor q) as Hhi.
  rewrite inject_Z_plus in Hhi.
  assert (Hone : (inject_Z 1 == 1)%Q) by reflexivity.
  destruct (q - inject_Z (Qfloor q) ?= 1 # 2)%Q eqn:Hc.
  - apply Qeq_alt in Hc. destruct (Z.even (Qfloor q)).
    + split; lra.
    + rewrite inject_Z_plus. split; lra.
  - apply Qlt_alt in Hc. split; lra.
  - apply Qgt_alt in Hc. rewrite inject_Z_plus. split; lra.
Qed.

Lemma mix_0 (d s : Z) : mix d s 0 = d.
Proof. unfold mix. rewrite Z.mul_0_r, Z.sub_0_r, Z.add_0_l. apply Z.div_mul. lia. Qed.

Lemma mix_255 (d s : Z) : mix d s 255 = s.
Proof.
  unfold mix. rewrite Z.sub_diag, Z.mul_0_r, Z.add_0_r. apply Z.div_mul. lia.
Qed.

Lemma mix_blend_0 (dst src : rgba) : mix_blend dst src 0 = dst.
Proof. destruct dst. unfold mix_blend. simpl. rewrite !mix_0. reflexivity. Qed.

Lemma mix_blend_255 (dst src : rgba) : mix_blend dst src 255 = src.
Proof. destruct src. unfold mix_blend. simpl. rewrite !mix_255. reflexivity. Qed.

#[export] Instance RefLib : PyLib := {
  py_str := ref_str;
  py_str_JStr := fun _ => eq_refl;
  url_quote := ref_quote;
  image_open_rgba := flat_decoder;
  py_round := round_half_even;
  py_round_near := round_half_even_near;
  resample := nearest_resample;
  blend := mix_blend;
  blend_0 := mix_blend_0;
  blend_255 := mix_blend_255;
  resize_refuses_empty := true
}.

(** The same library with the resizer of Pillow 13, which returns an empty
    image for a side of zero pixels. *)
Definition TolerantLib : PyLib := {|
  py_str := ref_str;
  py_str_JStr := fun _ => eq_refl;
  url_quote := ref_quote;
  image_open_rgba := flat_decoder;
  py_round := round_half_even;
  py_round_near := round_half_even_near;
  resample := nearest_resample;
  blend := mix_blend;
  blend_0 := mix_blend_0;
  blend_255 := mix_blend_255;
  resize_refuses_empty := false
|}.

Definition param (k : string) (params : list (string * json)) : json :=
  match find (fun kv => String.eqb (fst kv) k) params with
  | Some kv => snd kv
  | None => JNull
  end.

Definition json_is (v : json) (s : string) : bool :=
  match v with
  | JStr x => str_eqb x (lit s)
  | _ => false
  end.

Definition candidates_json (ids : list string) : json :=
  JObj [(lit "search", JArr (map (fun i => JObj [(lit "id", JStr (lit i))]) ids))].

Definition logo_json (filename : string) : json :=
  JObj [(lit "claims",
         JObj [(lit "P154",
                JArr [JObj [(lit "mainsnak",
                            JObj [(lit "datavalue",
                                   JObj [(lit "value", JStr (lit filename))])])]])])].

Definition no_logo_json : json := JObj [(lit "claims", JObj [])].

Definition network_error : exn := Exception "ConnectionError" (lit "connection refused").

(** A world that answers the same way whatever happened before: the
    candidates of each language, the entities that carry a logo, the answer
    of each download endpoint, the text of the brand file. *)
Definition world (tr en : list string) (with_logo : list string)
    (thumb direct : result bytes) (text : str) : Env := {|
  script_dir := lit "/srv/auto-brand-logos";
  fs_mkdir := fun _ _ => Ok tt;
  fs_read_text := fun _ _ => Ok text;
  api_json := fun _ params =>
    if json_is (param "action" params) "wbsearchentities" then
      if json_is (param "language" params) "tr" then Ok (candidates_json tr)
      else Ok (candidates_json en)
    else if existsb (json_is (param "entity" params)) with_logo
         then Ok (logo_json "Acme_logo.svg")
         else Ok no_logo_json;
  http_content := fun _ url =>
    if is_prefix (lit "https://commons.wikimedia.org/w/thumb.php") url
    then thumb else direct;
  image_save := fun _ _ _ => Ok tt;
  console_print := fun _ _ => Ok tt
|}.

(** A 300 by 150 raster of opaque red, in the stand-in format. *)
Definition red_300x150 : bytes := [1; 44; 0; 150; 255; 0; 0; 255]%N.

(** A 448 by 1 raster: a hairline. *)
Definition hairline_448x1 : bytes := [1; 192; 0; 1; 255; 0; 0; 255]%N.

(** A 10 by 10 raster. *)
Definition small_10x10 : bytes := [0; 10; 0; 10; 255; 0; 0; 255]%N.

Definition acme_text : str :=
  lit "# comment" ++ [10%N] ++ lit "  Acme Corp " ++ [13%N; 10%N] ++ [10%N].

Definition acme_world : Env :=
  world ["Q1"] [] ["Q1"] (Ok red_300x150) (Raise network_error) acme_text.

(** A world where nothing is found under any name. *)
Definition empty_world : Env :=
  world [] [] [] (Raise network_error) (Raise network_error) (lit "Unknown Brand X").

(** A world whose API cannot be reached. *)
Definition offline_world : Env := {|
  script_dir := lit "/srv/auto-brand-logos";
  fs_mkdir := fun _ _ => Ok tt;
  fs_read_text := fun _ _ => Ok (lit "Acme Corp");
  api_json := fun _ _ => Raise network_error;
  http_content := fun _ _ => Raise network_error;
  image_save := fun _ _ _ => Ok tt;
  console_print := fun _ _ => Ok tt
|}.

(** Two candidates under the Turkish label, the second one with a logo. *)
Definition two_candidates_world : Env :=
  world ["Q5"; "Q7"] ["Q9"] ["Q7"] (Raise network_error) (Ok red_300x150) (lit "Acme").

(** The raster the stand-in decoder reads from some bytes, and the canvas
    the normalizer makes of them; an empty raster when there is none. *)
Definition decoded (b : bytes) : image :=
  match flat_decoder b with
  | Ok img => img
  | Raise _ => Image_new (0, 0) transparent
  end.

Definition canvas_of (b : bytes) : image :=
  match to_png_128 b with
  | Ok (Some canvas) => canvas
  | _ => Image_new (0, 0) transparent
  end.

(** The members of [logo_json] and of [candidates_json]. *)
Definition logo_fields (filename : string) : list (str * json) :=
  [(lit "claims",
    JObj [(lit "P154",
           JArr [JObj [(lit "mainsnak",
                       JObj [(lit "datavalue",
                              JObj [(lit "value", JStr (lit filename))])])]])])].

Definition candidate_entries (ids : list string) : list (list (str * json)) :=
  map (fun i => [(lit "id", JStr (lit i))]) ids.

(** A world whose API gives the same answer to every request. *)
Definition answering_world (response : json) : Env := {|
  script_dir := lit "/srv/auto-brand-logos";
  fs_mkdir := fun _ _ => Ok tt;
  fs_read_text := fun _ _ => Ok (lit "Acme Corp");
  api_json := fun _ _ => Ok response;
  http_content := fun _ _ => Raise network_error;
  image_save := fun _ _ _ => Ok tt;
  console_print := fun _ _ => Ok tt
|}.

(** A world without a brand file. *)
Definition unreadable_world : Env := {|
  script_dir := lit "/srv/auto-brand-logos";
  fs_mkdir := fun _ _ => Ok tt;
  fs_read_text := fun _ _ =>
    Raise (Exception "FileNotFoundError" (lit "No such file or directory"));
  api_json := fun _ _ => Raise network_error;
  http_content := fun _ _ => Raise network_error;
  image_save := fun _ _ _ => Ok tt;
  console_print := fun _ _ => Ok tt
|}.

(** A world whose thumbnail endpoint answers with an empty body. *)
Definition empty_body_world : Env :=
  world ["Q1"] [] ["Q1"] (Ok []) (Ok red_300x150) (lit "Acme Corp").

(** A world whose brand file holds two names, each ended by CR LF. *)
Definition two_brands : list str := [lit "Acme Corp"; lit "A#1 / B"].

Definition two_brands_world : Env :=
  world ["Q1"] [] ["Q1"] (Ok red_300x150) (Raise network_error)
        (lit "Acme Corp" ++ [13%N; 10%N] ++ lit "A#1 / B" ++ [13%N; 10%N]).

(** A world whose brand file holds a comment and blank lines only. *)
Definition comment_text : str :=
  lit "# nothing yet" ++ [10%N] ++ lit "   " ++ [10%N] ++ [10%N].

Definition comment_world : Env :=
  world ["Q1"] [] ["Q1"] (Ok red_300x150) (Raise network_error) comment_text.

(** An environment with another console. *)
Definition with_console (env : Env) (console : hist -> str -> result unit) : Env := {|
  script_dir := script_dir env;
  fs_mkdir := fs_mkdir env;
  fs_read_text := fs_read_text env;
  api_json := api_json env;
  http_content := http_content env;
  image_save := image_save env;
  console_print := console
|}.

(** A console that encodes code points up to 255 only: like a cp1252
    console, it cannot print U+015E. *)
Definition narrow_console (_ : hist) (line : str) : result unit :=
  if forallb (fun c => N.leb c 255) line then Ok tt
  else Raise (Exception "UnicodeEncodeError"
                (lit "'charmap' codec can't encode character")).

(** The brand Sok, written with U+015E as its first letter. *)
Definition sok : str := [350%N; 111%N; 107%N].


(** A world whose API cannot be reached, on a narrow console. *)
Definition narrow_offline_world : Env := with_console offline_world narrow_console.

(** A 40 by 40 raster of red at alpha 128. *)
Definition half_red_40x40 : bytes := [0; 40; 0; 40; 255; 0; 0; 128]%N.

(** ** Vocabulary of the properties *)

Definition all_space (s : str) : bool := forallb py_isspace s.

(** No whitespace at either end. *)
Definition trimmed (s : str) : Prop :=
  (forall c rest, s = c :: rest -> py_isspace c = false) /\
  (forall c init, s = init ++ [c] -> py_isspace c = false).

(** The reader's condition on a line, in the words of its contract: the line
    is non-empty after trimming and its trimmed form does not begin with the
    hash sign. *)
Definition kept_line (line : str) : bool :=
  (negb (str_eqb (strip line) []) && negb (startswith (strip line) 35))%bool.

(** A computation [emits P] when every run of it only appends events that
    satisfy [P] to the history, whether it returns or raises. *)
Definition emits {A} (P : event -> Prop) (m : M A) : Prop :=
  forall h r h', m h = (r, h') -> exists evs, h' = h ++ evs /\ Forall P evs.

Definition is_api (ev : event) : Prop :=
  match ev with EvApi _ => True | _ => False end.

Definition is_get (ev : event) : Prop :=
  match ev with EvGet _ => True | _ => False end.


(** The history after the logo attribute of each candidate was fetched in
    turn, starting from [h], when none of the fetches gave a filename;
    [None] when one of them gave a filename or raised. *)
Fixpoint logoless_scan (env : Env) {lib : PyLib} (candidates : list json) (h : hist)
  : option hist :=
  match candidates with
  | [] => Some h
  | qid :: more =>
      match wikidata_get_logo_filename env qid h with
      | (Ok filename, h') =>
          if truthy filename then None else logoless_scan env more h'
      | (Raise _, _) => None
      end
  end.

(** A request to the network: the API or a download. *)
Definition is_request (ev : event) : Prop := is_api ev \/ is_get ev.


(** The paths of the files written so far, oldest first. *)
Fixpoint saved_paths (h : hist) : list str :=
  match h with
  | [] => []
  | EvSave path _ :: rest => path :: saved_paths rest
  | _ :: rest => saved_paths rest
  end.

Definition succeeded (r : str * bool * str) : bool := snd (fst r).

Definition brand_of (r : str * bool * str) : str := fst (fst r).



(** A blend mixes when, for a mask value m from 0 to 255, each channel of the
    result is the mean of the two channels weighted by m and 255 - m, rounded
    to less than one unit. *)
Definition near_mix (out dst src m : Z) : Prop :=
  Z.abs (255 * out - (src * m + dst * (255 - m))) < 255.

Definition pixel_ok (p : rgba) : Prop :=
  0 <= red p <= 255 /\ 0 <= green p <= 255 /\ 0 <= blue p <= 255
  /\ 0 <= alpha p <= 255.

Definition blend_mixes {lib : PyLib} : Prop :=
  forall dst src m,
    pixel_ok dst -> pixel_ok src -> 0 <= m <= 255 ->
    near_mix (red (blend dst src m)) (red dst) (red src) m
    /\ near_mix (green (blend dst src m)) (green dst) (green src) m
    /\ near_mix (blue (blend dst src m)) (blue dst) (blue src) m
    /\ near_mix (alpha (blend dst src m)) (alpha dst) (alpha src) m.


(** The file a successfully processed brand is written to. *)
Definition out_path (env : Env) (brand : str) : str :=
  path_join (OUTPUT_DIR env) (sanitize_filename brand ++ lit ".png").

(** The history once the output directory exists and the brand file was
    opened. *)
Definition started (env : Env) (h : hist) : hist :=
  h ++ [EvMkdir (OUTPUT_DIR env); EvOpen (BRANDS_FILE env)].

(** [side'] is [side] scaled by 112 / [long] and rounded: less than one
    pixel below the exact quotient and at most half a pixel above it. *)
Definition scaled_side (side' side long : Z) : Prop :=
  side * 112 < long * (side' + 1) /\ 2 * long * side' <= 2 * side * 112 + long.

(** ** Vocabulary of the further properties *)

(** A value [in] and [for] accept: a dict, a list or a str. *)
Definition is_container (v : json) : bool :=
  match v with
  | JObj _ | JArr _ | JStr _ => true
  | _ => false
  end.

Definition is_object (v : json) : bool :=
  match v with
  | JObj _ => true
  | _ => false
  end.

(** The value at claims.P154[0].mainsnak.datavalue.value, when every step of
    that path is there. *)
Definition logo_value (claims : json) : option json :=
  match claims with
  | JObj c =>
      match dict_lookup (lit "P154") c with
      | Some (JArr (JObj first :: _)) =>
          match dict_lookup (lit "mainsnak") first with
          | Some (JObj mainsnak) =>
              match dict_lookup (lit "datavalue") mainsnak with
              | Some (JObj datavalue) => dict_lookup (lit "value") datavalue
              | _ => None
              end
          | _ => None
          end
      | _ => None
      end
  | _ => None
  end.

(** The claims of a response object: its claims member, an empty dict when
    there is none. *)
Definition claims_of (fields : list (str * json)) : json :=
  match dict_lookup (lit "claims") fields with
  | Some c => c
  | None => JObj []
  end.

(** The ids of a list of result objects that pass the truth test, in order. *)
Fixpoint truthy_ids (entries : list (list (str * json))) : list json :=
  match entries with
  | [] => []
  | fields :: more =>
      match dict_lookup (lit "id") fields with
      | Some v => if truthy v then v :: truthy_ids more else truthy_ids more
      | None => truthy_ids more
      end
  end.

(** A name the reader can return and that stays on one line. *)
Definition line_brand (b : str) : Prop :=
  b <> [] /\ trimmed b /\ startswith b 35 = false
  /\ Forall (fun c => c <> 10%N /\ c <> 13%N) b.

(** An API whose answers do not depend on what happened before. *)
Definition stable_api (env : Env) : Prop :=
  forall h h' params, api_json env h params = api_json env h' params.

(** The text of a brand file: each name followed by the line terminator. *)
Fixpoint brand_file (eol : str) (brands : list str) : str :=
  match brands with
  | [] => []
  | b :: more => b ++ eol ++ brand_file eol more
  end.

(** [trimmed] and [line_brand] as tests. *)
Definition trimmedb (s : str) : bool :=
  (match s with [] => true | c :: _ => negb (py_isspace c) end
   && match rev s with [] => true | c :: _ => negb (py_isspace c) end)%bool.

Definition line_brandb (b : str) : bool :=
  (str_truthy b && trimmedb b && negb (startswith b 35)
   && forallb (fun c => negb (N.eqb c 10) && negb (N.eqb c 13)) b)%bool.

(** * Properties *)

(** ** Trimming *)

Lemma lstrip_split (s : str) :
  exists pre, s = pre ++ lstrip s /\ all_space pre = true.
Proof.
  induction s as [|c s IH]; simpl.
  - exists []. split; reflexivity.
  - destruct (py_isspace c) eqn:Hc.
    + destruct IH as [pre [Heq Hpre]].
      exists (c :: pre). split.
      * simpl. f_equal. exact Heq.
      * simpl. rewrite Hc. exact Hpre.
    + exists []. split; reflexivity.
Qed.

Lemma lstrip_head (s : str) c rest :
  lstrip s = c :: rest -> py_isspace c = false.
Proof.
  induction s as [|x s IH]; simpl; intro H.
  - discriminate.
  - destruct (py_isspace x) eqn:Hx.
    + apply IH. exact H.
    + injection H as <- _. exact Hx.
Qed.

Lemma lstrip_fixed (s : str) :
  (forall c rest, s = c :: rest -> py_isspace c = false) -> lstrip s = s.
Proof.
  destruct s as [|c s]; simpl; intro H.
  - reflexivity.
  - rewrite (H c s eq_refl). reflexivity.
Qed.

Lemma all_space_rev (s : str) : all_space (rev s) = all_space s.
Proof.
  unfold all_space. induction s as [|c s IH]; simpl.
  - reflexivity.
  - rewrite forallb_app, IH. simpl. rewrite andb_true_r. apply andb_comm.
Qed.

Lemma rstrip_split (s : str) :
  exists post, s = rstrip s ++ post /\ all_space post = true.
Proof.
  unfold rstrip.
  destruct (lstrip_split (rev s)) as [pre [Heq Hpre]].
  exists (rev pre). split.
  - rewrite <- rev_app_distr, <- Heq, rev_involutive. reflexivity.
  - rewrite all_space_rev. exact Hpre.
Qed.

Lemma rstrip_last (s : str) c init :
  rstrip s = init ++ [c] -> py_isspace c = false.
Proof.
  unfold rstrip. intro H.
  apply (f_equal (@rev N)) in H.
  rewrite rev_involutive, rev_app_distr in H. simpl in H.
  exact (lstrip_head _ _ _ H).
Qed.

Lemma rstrip_keeps_head (s : str) c rest :
  rstrip s = c :: rest -> exists rest', s = c :: rest'.
Proof.
  intro H. destruct (rstrip_split s) as [post [Heq _]].
  rewrite H in Heq. simpl in Heq. eauto.
Qed.

(** [strip] removes a run of whitespace at each end and nothing else, and
    what is left has no whitespace at either end. *)
Lemma strip_spec (s : str) :
  exists pre post,
    s = pre ++ strip s ++ post /\
    all_space pre = true /\ all_space post = true /\ trimmed (strip s).
Proof.
  unfold strip.
  destruct (lstrip_split s) as [pre [Hpre Hsp]].
  destruct (rstrip_split (lstrip s)) as [post [Hpost Hso]].
  exists pre, post. repeat split; try assumption.
  - rewrite <- Hpost. exact Hpre.
  - intros c rest H.
    destruct (rstrip_keeps_head _ _ _ H) as [rest' H'].
    exact (lstrip_head _ _ _ H').
  - intros c init H. exact (rstrip_last _ _ _ H).
Qed.

Lemma strip_trimmed (s : str) : trimmed (strip s).
Proof. destruct (strip_spec s) as (? & ? & _ & _ & _ & H). exact H. Qed.

Lemma rstrip_fixed (s : str) :
  (forall c init, s = init ++ [c] -> py_isspace c = false) -> rstrip s = s.
Proof.
  intro H. unfold rstrip.
  rewrite lstrip_fixed.
  - apply rev_involutive.
  - intros c rest Hr. apply (H c (rev rest)).
    rewrite <- (rev_involutive s), Hr. reflexivity.
Qed.

Lemma strip_fixed (s : str) : trimmed s -> strip s = s.
Proof.
  intros [Hl Hr]. unfold strip.
  rewrite (lstrip_fixed _ Hl). apply rstrip_fixed. exact Hr.
Qed.

(** ** C7: the brand list reader *)

Lemma brands_of_lines_filter (lines : list str) :
  brands_of_lines lines = map strip (filter kept_line lines).
Proof.
  induction lines as [|line more IH]; simpl.
  - reflexivity.
  - unfold kept_line at 1.
    destruct (strip line) as [|c s] eqn:Hs; simpl.
    + exact IH.
    + destruct (N.eqb c 35); simpl.
      * exact IH.
      * rewrite Hs, IH. reflexivity.
Qed.

Lemma kept_line_facts (line : str) :
  kept_line line = true ->
  strip line <> [] /\ startswith (strip line) 35 = false /\ trimmed (strip line).
Proof.
  unfold kept_line. intro H.
  apply andb_true_iff in H. destruct H as [H1 H2].
  apply negb_true_iff in H1, H2.
  repeat split.
  - intro He. rewrite He in H1. discriminate.
  - exact H2.
  - apply (strip_trimmed line).
  - apply (strip_trimmed line).
Qed.

(** C7. Whatever text the brand file holds, [read_brands] returns exactly
    its lines that are non-empty after trimming and whose trimmed form does
    not begin with the hash sign, each trimmed, in the order of the file;
    every returned name is non-empty, has no whitespace at either end and
    does not start with the hash sign; a file with no such line gives the
    empty list. *)
Theorem read_brands_lines (env : Env) (path text : str) (h : hist) :
  fs_read_text env h path = Ok text ->
  read_brands env path h
    = (Ok (map strip (filter kept_line (file_lines text))), h ++ [EvOpen path])
  /\ Forall (fun b => b <> [] /\ startswith b 35 = false /\ trimmed b)
       (map strip (filter kept_line (file_lines text)))
  /\ (filter kept_line (file_lines text) = [] ->
      read_brands env path h = (Ok [], h ++ [EvOpen path])).
Proof.
  intro Hread.
  assert (Hrun : read_brands env path h
                 = (Ok (map strip (filter kept_line (file_lines text))), h ++ [EvOpen path])).
  { unfold read_brands, bind, perform, ret. rewrite Hread.
    rewrite brands_of_lines_filter. reflexivity. }
  split; [exact Hrun | split].
  - apply Forall_forall. intros b Hb.
    apply in_map_iff in Hb. destruct Hb as [line [<- Hin]].
    apply filter_In in Hin. destruct Hin as [_ Hk].
    apply kept_line_facts. exact Hk.
  - intro Hnone. rewrite Hrun, Hnone. reflexivity.
Qed.

(** ** Running the effect monad *)

Section Runs.

Context {A B : Type}.

Lemma bind_Ok (m : M A) (k : A -> M B) h a h1 :
  m h = (Ok a, h1) -> bind m k h = k a h1.
Proof. unfold bind. intros ->. reflexivity. Qed.

Lemma bind_Raise (m : M A) (k : A -> M B) h e h1 :
  m h = (Raise e, h1) -> bind m k h = (Raise e, h1).
Proof. unfold bind. intros ->. reflexivity. Qed.

Lemma try_Ok (m : M A) (handler : exn -> M A) h a h1 :
  m h = (Ok a, h1) -> try_except m handler h = (Ok a, h1).
Proof. unfold try_except. intros ->. reflexivity. Qed.

Lemma try_Raise (m : M A) (handler : exn -> M A) h e h1 :
  m h = (Raise e, h1) -> try_except m handler h = handler e h1.
Proof. unfold try_except. intros ->. reflexivity. Qed.

End Runs.

Lemma emits_ret {A} P (a : A) : emits P (ret a).
Proof.
  intros h r h' H. injection H as _ <-. exists []. split.
  - symmetry. apply app_nil_r.
  - constructor.
Qed.

Lemma emits_lift {A} P (r : result A) : emits P (lift r).
Proof.
  intros h r' h' H. injection H as _ <-. exists []. split.
  - symmetry. apply app_nil_r.
  - constructor.
Qed.

Lemma emits_perform {A} (P : event -> Prop) ev (answer : hist -> result A) :
  P ev -> emits P (perform ev answer).
Proof.
  intros Hev h r h' H. injection H as _ <-. exists [ev]. split.
  - reflexivity.
  - constructor; [exact Hev | constructor].
Qed.

Lemma emits_bind {A B} P (m : M A) (k : A -> M B) :
  emits P m -> (forall a, emits P (k a)) -> emits P (bind m k).
Proof.
  intros Hm Hk h r h' H. unfold bind in H.
  destruct (m h) as [[a|e] h1] eqn:Hmh.
  - destruct (Hm _ _ _ Hmh) as [evs1 [-> F1]].
    destruct (Hk a _ _ _ H) as [evs2 [-> F2]].
    exists (evs1 ++ evs2). split.
    + symmetry. apply app_assoc.
    + apply Forall_app. split; assumption.
  - injection H as _ <-. exact (Hm _ _ _ Hmh).
Qed.

Lemma emits_try {A} P (m : M A) (handler : exn -> M A) :
  emits P m -> (forall e, emits P (handler e)) -> emits P (try_except m handler).
Proof.
  intros Hm Hk h r h' H. unfold try_except in H.
  destruct (m h) as [[a|e] h1] eqn:Hmh.
  - injection H as _ <-. exact (Hm _ _ _ Hmh).
  - destruct (Hm _ _ _ Hmh) as [evs1 [-> F1]].
    destruct (Hk e _ _ _ H) as [evs2 [-> F2]].
    exists (evs1 ++ evs2). split.
    + symmetry. apply app_assoc.
    + apply Forall_app. split; assumption.
Qed.

Lemma emits_if {A} P (b : bool) (m1 m2 : M A) :
  emits P m1 -> emits P m2 -> emits P (if b then m1 else m2).
Proof. destruct b; auto. Qed.

Section Frames.

Context (env : Env) {lib : PyLib}.

Lemma api_get_emits params : emits is_api (api_get env params).
Proof. apply emits_perform. exact I. Qed.

Lemma session_get_emits url : emits is_get (session_get env url).
Proof. apply emits_perform. exact I. Qed.

Lemma wikidata_get_logo_filename_emits qid :
  emits is_api (wikidata_get_logo_filename env qid).
Proof.
  unfold wikidata_get_logo_filename.
  apply emits_bind; [apply api_get_emits | intro r_json].
  apply emits_bind; [apply emits_lift | intro claims].
  apply emits_bind; [apply emits_lift | intro present].
  apply emits_if; [apply emits_ret |].
  apply emits_try; [| intro; apply emits_ret].
  repeat (apply emits_bind; [apply emits_lift | intro]).
  apply emits_ret.
Qed.

Lemma wikidata_search_candidates_emits name lang limit :
  emits is_api (wikidata_search_candidates env name lang limit).
Proof.
  unfold wikidata_search_candidates.
  apply emits_bind; [apply api_get_emits | intro r_json].
  repeat (apply emits_bind; [apply emits_lift | intro]).
  apply emits_lift.
Qed.

Lemma first_with_logo_emits cands : emits is_api (first_with_logo env cands).
Proof.
  induction cands as [|qid more IH]; simpl.
  - apply emits_ret.
  - apply emits_bind; [apply wikidata_get_logo_filename_emits | intro f].
    apply emits_if; [apply emits_ret | exact IH].
Qed.

Lemma search_langs_emits name langs : emits is_api (search_langs env name langs).
Proof.
  induction langs as [|lang more IH]; simpl.
  - apply emits_ret.
  - apply emits_bind; [apply wikidata_search_candidates_emits | intro cands].
    apply emits_bind; [apply first_with_logo_emits | intro found].
    destruct found; [apply emits_ret |].
    destruct cands; [exact IH | apply emits_ret].
Qed.

Lemma wikidata_search_entity_emits name :
  emits is_api (wikidata_search_entity env name).
Proof. apply search_langs_emits. Qed.

Lemma download_commons_raster_emits filename :
  emits is_get (download_commons_raster env filename).
Proof.
  unfold download_commons_raster.
  apply emits_bind; [apply emits_lift | intro quoted].
  apply emits_try.
  - apply emits_bind; [apply session_get_emits | intro; apply emits_ret].
  - intro. apply emits_try; [| intro; apply emits_ret].
    apply emits_bind; [apply session_get_emits | intro; apply emits_ret].
Qed.

End Frames.

(** ** C1: the entity resolver *)

Section Resolver.

Context (env : Env) {lib : PyLib}.

Lemma first_with_logo_found pre qid post h1 h2 filename h3 :
  logoless_scan env pre h1 = Some h2 ->
  wikidata_get_logo_filename env qid h2 = (Ok filename, h3) ->
  truthy filename = true ->
  first_with_logo env (pre ++ qid :: post) h1 = (Ok (Some qid), h3).
Proof.
  revert h1. induction pre as [|c pre IH]; simpl; intros h1 Hscan Hfetch Ht.
  - injection Hscan as ->.
    rewrite (bind_Ok _ _ _ _ _ Hfetch), Ht. reflexivity.
  - destruct (wikidata_get_logo_filename env c h1) as [[f|e] h'] eqn:Hc;
      [| discriminate].
    destruct (truthy f) eqn:Hf; [discriminate |].
    rewrite (bind_Ok _ _ _ _ _ Hc), Hf.
    apply IH; assumption.
Qed.

Lemma first_with_logo_none cands h1 h2 :
  logoless_scan env cands h1 = Some h2 ->
  first_with_logo env cands h1 = (Ok None, h2).
Proof.
  revert h1. induction cands as [|c cands IH]; simpl; intros h1 Hscan.
  - injection Hscan as ->. reflexivity.
  - destruct (wikidata_get_logo_filename env c h1) as [[f|e] h'] eqn:Hc;
      [| discriminate].
    destruct (truthy f) eqn:Hf; [discriminate |].
    rewrite (bind_Ok _ _ _ _ _ Hc), Hf.
    apply IH; assumption.
Qed.

(** One language of the loop: the first candidate with a logo wins. *)
Lemma search_langs_logo name lang more h pre qid post h1 h2 filename h3 :
  wikidata_search_candidates env name lang 15 h = (Ok (pre ++ qid :: post), h1) ->
  logoless_scan env pre h1 = Some h2 ->
  wikidata_get_logo_filename env qid h2 = (Ok filename, h3) ->
  truthy filename = true ->
  search_langs env name (lang :: more) h = (Ok qid, h3).
Proof.
  intros Hc Hscan Hfetch Ht. simpl.
  rewrite (bind_Ok _ _ _ _ _ Hc).
  rewrite (bind_Ok _ _ _ _ _ (first_with_logo_found _ _ _ _ _ _ _ Hscan Hfetch Ht)).
  reflexivity.
Qed.

(** One language of the loop: no logo among one candidate or more. *)
Lemma search_langs_first name lang more h first rest h1 h2 :
  wikidata_search_candidates env name lang 15 h = (Ok (first :: rest), h1) ->
  logoless_scan env (first :: rest) h1 = Some h2 ->
  search_langs env name (lang :: more) h = (Ok first, h2).
Proof.
  intros Hc Hscan. cbn [search_langs].
  rewrite (bind_Ok _ _ _ _ _ Hc).
  rewrite (bind_Ok _ _ _ _ _ (first_with_logo_none _ _ _ Hscan)).
  reflexivity.
Qed.

(** One language of the loop: no candidate at all. *)
Lemma search_langs_next name lang more h h1 :
  wikidata_search_candidates env name lang 15 h = (Ok [], h1) ->
  search_langs env name (lang :: more) h = search_langs env name more h1.
Proof.
  intros Hc. cbn [search_langs].
  rewrite (bind_Ok _ _ _ _ _ Hc). reflexivity.
Qed.

(** A search is one request to the API, carrying the name, the language and
    the limit. *)
Lemma wikidata_search_candidates_request name lang limit h :
  snd (wikidata_search_candidates env name lang limit h)
  = h ++ [EvApi (search_params name lang limit)].
Proof.
  unfold wikidata_search_candidates, bind, api_get, perform, lift.
  destruct (api_json env h (search_params name lang limit)) as [r|e]; [| reflexivity].
  destruct (py_get r "search" (JArr [])) as [s|e]; [| reflexivity].
  destruct (py_iter s) as [l|e]; reflexivity.
Qed.

(** C1. The resolver asks for the candidates under the Turkish label first,
    with limit 15, whatever the name.  In the language at hand, the first
    candidate, in list order, whose logo attribute fetch gives a filename is
    returned; when the list is not empty and no fetch gives a filename the
    first candidate is returned; when the list is empty the English label is
    searched next, from the history the Turkish search left, under the same
    rules; when both lists are empty the result is None. *)
Theorem wikidata_search_entity_rules (name : str) (h : hist) :
  (exists evs,
     snd (wikidata_search_entity env name h)
     = h ++ EvApi (search_params name (lit "tr") 15) :: evs)
  /\ (forall pre qid post h1 h2 filename h3,
        wikidata_search_candidates env name (lit "tr") 15 h = (Ok (pre ++ qid :: post), h1) ->
        logoless_scan env pre h1 = Some h2 ->
        wikidata_get_logo_filename env qid h2 = (Ok filename, h3) ->
        truthy filename = true ->
        wikidata_search_entity env name h = (Ok qid, h3))
  /\ (forall first rest h1 h2,
        wikidata_search_candidates env name (lit "tr") 15 h = (Ok (first :: rest), h1) ->
        logoless_scan env (first :: rest) h1 = Some h2 ->
        wikidata_search_entity env name h = (Ok first, h2))
  /\ (forall h1,
        wikidata_search_candidates env name (lit "tr") 15 h = (Ok [], h1) ->
        h1 = h ++ [EvApi (search_params name (lit "tr") 15)]
        /\ (forall pre qid post h2 h3 filename h4,
              wikidata_search_candidates env name (lit "en") 15 h1
                = (Ok (pre ++ qid :: post), h2) ->
              logoless_scan env pre h2 = Some h3 ->
              wikidata_get_logo_filename env qid h3 = (Ok filename, h4) ->
              truthy filename = true ->
              wikidata_search_entity env name h = (Ok qid, h4))
        /\ (forall first rest h2 h3,
              wikidata_search_candidates env name (lit "en") 15 h1
                = (Ok (first :: rest), h2) ->
              logoless_scan env (first :: rest) h2 = Some h3 ->
              wikidata_search_entity env name h = (Ok first, h3))
        /\ (forall h2,
              wikidata_search_candidates env name (lit "en") 15 h1 = (Ok [], h2) ->
              wikidata_search_entity env name h = (Ok JNull, h2)
              /\ h2 = h ++ [EvApi (search_params name (lit "tr") 15);
                            EvApi (search_params name (lit "en") 15)])).
Proof.
  unfold wikidata_search_entity.
  split; [| split; [| split; [| intros h1 Htr; split; [| split; [| split]]]]].
  - cbn [search_langs]. unfold bind at 1.
    pose proof (wikidata_search_candidates_request name (lit "tr") 15 h) as Hreq.
    destruct (wikidata_search_candidates env name (lit "tr") 15 h) as [[cands|e] h1] eqn:Hc;
      simpl in Hreq; subst h1.
    + match goal with |- context [?m (h ++ [?ev])] =>
        destruct (m (h ++ [ev])) as [r h'] eqn:Hrest end.
      assert (Hem : emits is_api
                (found <- first_with_logo env cands ;;
                 match found with
                 | Some qid => ret qid
                 | None => match cands with
                           | [] => search_langs env name [lit "en"]
                           | first :: _ => ret first
                           end
                 end)).
      { apply emits_bind; [apply first_with_logo_emits | intro found].
        destruct found; [apply emits_ret |].
        destruct cands; [apply search_langs_emits | apply emits_ret]. }
      destruct (Hem _ _ _ Hrest) as [evs [-> _]].
      exists evs. simpl. rewrite <- app_assoc. reflexivity.
    + exists []. reflexivity.
  - intros. eapply search_langs_logo; eassumption.
  - intros. eapply search_langs_first; eassumption.
  - pose proof (wikidata_search_candidates_request name (lit "tr") 15 h) as Hreq.
    rewrite Htr in Hreq. exact Hreq.
  - intros. rewrite (search_langs_next _ _ _ _ _ Htr).
    eapply search_langs_logo; eassumption.
  - intros. rewrite (search_langs_next _ _ _ _ _ Htr).
    eapply search_langs_first; eassumption.
  - intros h2 Hen.
    rewrite (search_langs_next _ _ _ _ _ Htr), (search_langs_next _ _ _ _ _ Hen).
    split; [reflexivity |].
    pose proof (wikidata_search_candidates_request name (lit "tr") 15 h) as H1.
    pose proof (wikidata_search_candidates_request name (lit "en") 15 h1) as H2.
    rewrite Htr in H1. rewrite Hen in H2. simpl in H1, H2.
    rewrite H2, H1, <- app_assoc. reflexivity.
Qed.

End Resolver.

(** ** C9: the asset downloader *)

Section Downloader.

Context (env : Env) {lib : PyLib}.

(** C9. For a filename that quote() encodes, the downloader first requests
    the thumbnail endpoint, with the encoded filename and width 1024; if
    that request succeeds its content is the result and nothing else is
    requested; if it fails in any way the direct file path endpoint is
    requested once for the same encoded filename; if that fails too the
    result is None, which [process_brand] reports as a failed download.  No
    run makes more than these two requests. *)
Theorem download_commons_raster_fallback (filename : json) (quoted : str) (h : hist) :
  url_quote filename = Ok quoted ->
  let thumb_url :=
    lit "https://commons.wikimedia.org/w/thumb.php?f=" ++ quoted ++ lit "&w=1024" in
  let file_url :=
    lit "https://commons.wikimedia.org/wiki/Special:FilePath/" ++ quoted in
  match http_content env h thumb_url with
  | Ok content =>
      download_commons_raster env filename h = (Ok (Some content), h ++ [EvGet thumb_url])
  | Raise _ =>
      match http_content env (h ++ [EvGet thumb_url]) file_url with
      | Ok content =>
          download_commons_raster env filename h
          = (Ok (Some content), h ++ [EvGet thumb_url; EvGet file_url])
      | Raise _ =>
          download_commons_raster env filename h
          = (Ok None, h ++ [EvGet thumb_url; EvGet file_url])
          /\ bytes_truthy None = false
      end
  end.
Proof.
  intros Hq thumb_url file_url.
  assert (Ht : COMMONS_THUMB quoted 1024 = thumb_url) by reflexivity.
  assert (Hf : COMMONS_FILEPATH quoted = file_url) by reflexivity.
  unfold download_commons_raster, bind, lift, try_except, session_get, perform, ret.
  rewrite Hq. cbv beta iota. rewrite Ht, Hf.
  destruct (http_content env h thumb_url) as [c|e]; [reflexivity |].
  rewrite <- app_assoc. simpl.
  destruct (http_content env (h ++ [EvGet thumb_url]) file_url) as [c|e2].
  - reflexivity.
  - split; reflexivity.
Qed.

End Downloader.

(** In a world whose thumbnail endpoint fails and whose file path endpoint
    answers, the download makes both requests and returns the content. *)
Lemma download_commons_raster_fallback_witness :
  download_commons_raster two_candidates_world (JStr (lit "Acme logo.svg")) []
  = (Ok (Some red_300x150),
     [EvGet (lit "https://commons.wikimedia.org/w/thumb.php?f=Acme%20logo.svg&w=1024");
      EvGet (lit "https://commons.wikimedia.org/wiki/Special:FilePath/Acme%20logo.svg")]).
Proof.
  exact (download_commons_raster_fallback two_candidates_world
           (JStr (lit "Acme logo.svg")) (lit "Acme%20logo.svg") [] eq_refl).
Defined.

(** ** The stages of process_brand *)

Lemma bind_inv_Ok {A B} (m : M A) (k : A -> M B) h b h' :
  bind m k h = (Ok b, h') ->
  exists a h1, m h = (Ok a, h1) /\ k a h1 = (Ok b, h').
Proof.
  unfold bind. destruct (m h) as [[a|e] h1]; intro H.
  - exists a, h1. split; [reflexivity | exact H].
  - discriminate.
Qed.

Lemma candidate_ids_truthy entries ids :
  candidate_ids entries = Ok ids -> Forall (fun qid => truthy qid = true) ids.
Proof.
  revert ids. induction entries as [|entry more IH]; simpl; intros ids H.
  - injection H as <-. constructor.
  - destruct (py_get entry "id" JNull) as [test|e]; [| discriminate].
    destruct (truthy test) eqn:Ht.
    + destruct (candidate_ids more) as [ids'|e]; [| discriminate].
      injection H as <-. constructor; [exact Ht | apply IH; reflexivity].
    + apply IH. exact H.
Qed.

Section Stages.

Context (env : Env) {lib : PyLib}.

Lemma wikidata_search_candidates_truthy name lang limit h cands h1 :
  wikidata_search_candidates env name lang limit h = (Ok cands, h1) ->
  Forall (fun qid => truthy qid = true) cands.
Proof.
  unfold wikidata_search_candidates. intro H.
  apply bind_inv_Ok in H. destruct H as (r & h2 & _ & H).
  apply bind_inv_Ok in H. destruct H as (s & h3 & _ & H).
  apply bind_inv_Ok in H. destruct H as (l & h4 & _ & H).
  unfold lift in H. injection H as H _.
  exact (candidate_ids_truthy _ _ H).
Qed.

Lemma first_with_logo_member cands h qid h1 :
  first_with_logo env cands h = (Ok (Some qid), h1) -> In qid cands.
Proof.
  revert h. induction cands as [|c cands IH]; simpl; intros h H.
  - discriminate.
  - apply bind_inv_Ok in H. destruct H as (f & h2 & _ & H).
    destruct (truthy f).
    + injection H as -> _. left. reflexivity.
    + right. exact (IH _ H).
Qed.

Lemma first_with_logo_nil h : first_with_logo env [] h = (Ok None, h).
Proof. reflexivity. Qed.

(** A resolver that returns no entity found no candidate in any language,
    and made one search request for each language and no other request. *)
Lemma search_langs_falsy name langs h qid h1 :
  search_langs env name langs h = (Ok qid, h1) ->
  truthy qid = false ->
  qid = JNull /\ h1 = h ++ map (fun lang => EvApi (search_params name lang 15)) langs.
Proof.
  revert h. induction langs as [|lang more IH]; intros h H Hf.
  - simpl in H. injection H as <- <-. split; [reflexivity |].
    symmetry. apply app_nil_r.
  - cbn [search_langs] in H.
    apply bind_inv_Ok in H. destruct H as (cands & h2 & Hc & H).
    apply bind_inv_Ok in H. destruct H as (found & h3 & Hfound & H).
    pose proof (wikidata_search_candidates_truthy _ _ _ _ _ _ Hc) as Hall.
    pose proof (wikidata_search_candidates_request env name lang 15 h) as Hreq.
    rewrite Hc in Hreq. simpl in Hreq.
    destruct found as [q|].
    + injection H as -> _.
      apply first_with_logo_member in Hfound.
      rewrite Forall_forall in Hall. rewrite (Hall _ Hfound) in Hf. discriminate.
    + destruct cands as [|first rest].
      * rewrite first_with_logo_nil in Hfound. injection Hfound as <-.
        destruct (IH _ H Hf) as [-> ->]. split; [reflexivity |].
        rewrite Hreq, <- app_assoc. reflexivity.
      * injection H as -> _.
        inversion Hall as [|? ? Hq _]; subst. rewrite Hq in Hf. discriminate.
Qed.

Lemma process_brand_no_entity brand h qid h1 :
  wikidata_search_entity env brand h = (Ok qid, h1) ->
  truthy qid = false ->
  process_brand env brand h = (Ok (brand, false, lit "No Wikidata item found"), h1).
Proof.
  intros Hs Hq. unfold process_brand.
  apply try_Ok. rewrite (bind_Ok _ _ _ _ _ Hs), Hq. reflexivity.
Qed.

Lemma process_brand_no_logo brand h qid h1 filename h2 :
  wikidata_search_entity env brand h = (Ok qid, h1) ->
  truthy qid = true ->
  wikidata_get_logo_filename env qid h1 = (Ok filename, h2) ->
  truthy filename = false ->
  process_brand env brand h
  = (Ok (brand, false, lit "No logo (P154) for " ++ py_str qid), h2).
Proof.
  intros Hs Hq Hl Hf. unfold process_brand.
  apply try_Ok. rewrite (bind_Ok _ _ _ _ _ Hs), Hq. cbn [negb].
  rewrite (bind_Ok _ _ _ _ _ Hl), Hf. reflexivity.
Qed.

Lemma process_brand_download_failed brand h qid h1 filename h2 img_bytes h3 :
  wikidata_search_entity env brand h = (Ok qid, h1) ->
  truthy qid = true ->
  wikidata_get_logo_filename env qid h1 = (Ok filename, h2) ->
  truthy filename = true ->
  download_commons_raster env filename h2 = (Ok img_bytes, h3) ->
  bytes_truthy img_bytes = false ->
  process_brand env brand h = (Ok (brand, false, lit "Download failed"), h3).
Proof.
  intros Hs Hq Hl Hf Hd Hb. unfold process_brand.
  apply try_Ok. rewrite (bind_Ok _ _ _ _ _ Hs), Hq. cbn [negb].
  rewrite (bind_Ok _ _ _ _ _ Hl), Hf. cbn [negb].
  rewrite (bind_Ok _ _ _ _ _ Hd), Hb. reflexivity.
Qed.

Lemma process_brand_conversion_failed brand h qid h1 filename h2 b h3 :
  wikidata_search_entity env brand h = (Ok qid, h1) ->
  truthy qid = true ->
  wikidata_get_logo_filename env qid h1 = (Ok filename, h2) ->
  truthy filename = true ->
  download_commons_raster env filename h2 = (Ok (Some b), h3) ->
  bytes_truthy (Some b) = true ->
  to_png_128 b = Ok None ->
  process_brand env brand h = (Ok (brand, false, lit "Conversion failed"), h3).
Proof.
  intros Hs Hq Hl Hf Hd Hb Hc. unfold process_brand.
  apply try_Ok. rewrite (bind_Ok _ _ _ _ _ Hs), Hq. cbn [negb].
  rewrite (bind_Ok _ _ _ _ _ Hl), Hf. cbn [negb].
  rewrite (bind_Ok _ _ _ _ _ Hd), Hb. cbn [negb].
  unfold bind at 1, lift at 1. rewrite Hc. reflexivity.
Qed.

Lemma process_brand_saved brand h qid h1 filename h2 b h3 img :
  wikidata_search_entity env brand h = (Ok qid, h1) ->
  truthy qid = true ->
  wikidata_get_logo_filename env qid h1 = (Ok filename, h2) ->
  truthy filename = true ->
  download_commons_raster env filename h2 = (Ok (Some b), h3) ->
  bytes_truthy (Some b) = true ->
  to_png_128 b = Ok (Some img) ->
  process_brand env brand h
  = (match image_save env h3 (out_path env brand) img with
     | Ok _ => Ok (brand, true, lit "OK")
     | Raise e => Ok (brand, false, lit "Error: " ++ exn_str e)
     end, h3 ++ [EvSave (out_path env brand) img]).
Proof.
  intros Hs Hq Hl Hf Hd Hb Hc. unfold process_brand.
  unfold try_except.
  rewrite (bind_Ok _ _ _ _ _ Hs), Hq. cbn [negb].
  rewrite (bind_Ok _ _ _ _ _ Hl), Hf. cbn [negb].
  rewrite (bind_Ok _ _ _ _ _ Hd), Hb. cbn [negb].
  unfold bind at 1, lift at 1. rewrite Hc.
  unfold bind, perform, ret. fold (out_path env brand).
  destruct (image_save env h3 (out_path env brand) img) as [[]|e]; reflexivity.
Qed.


Lemma process_brand_error_resolution brand h e h1 :
  wikidata_search_entity env brand h = (Raise e, h1) ->
  process_brand env brand h = (Ok (brand, false, lit "Error: " ++ exn_str e), h1).
Proof.
  intros Hs. unfold process_brand.
  rewrite (try_Raise _ _ h e h1); [reflexivity |].
  apply bind_Raise. exact Hs.
Qed.

Lemma process_brand_error_fetch brand h qid h1 e h2 :
  wikidata_search_entity env brand h = (Ok qid, h1) ->
  truthy qid = true ->
  wikidata_get_logo_filename env qid h1 = (Raise e, h2) ->
  process_brand env brand h = (Ok (brand, false, lit "Error: " ++ exn_str e), h2).
Proof.
  intros Hs Hq Hl. unfold process_brand.
  rewrite (try_Raise _ _ h e h2); [reflexivity |].
  rewrite (bind_Ok _ _ _ _ _ Hs), Hq. cbn [negb].
  apply bind_Raise. exact Hl.
Qed.

Lemma process_brand_error_download brand h qid h1 filename h2 e h3 :
  wikidata_search_entity env brand h = (Ok qid, h1) ->
  truthy qid = true ->
  wikidata_get_logo_filename env qid h1 = (Ok filename, h2) ->
  truthy filename = true ->
  download_commons_raster env filename h2 = (Raise e, h3) ->
  process_brand env brand h = (Ok (brand, false, lit "Error: " ++ exn_str e), h3).
Proof.
  intros Hs Hq Hl Hf Hd. unfold process_brand.
  rewrite (try_Raise _ _ h e h3); [reflexivity |].
  rewrite (bind_Ok _ _ _ _ _ Hs), Hq. cbn [negb].
  rewrite (bind_Ok _ _ _ _ _ Hl), Hf. cbn [negb].
  apply bind_Raise. exact Hd.
Qed.

Lemma process_brand_error_normalize brand h qid h1 filename h2 b h3 e :
  wikidata_search_entity env brand h = (Ok qid, h1) ->
  truthy qid = true ->
  wikidata_get_logo_filename env qid h1 = (Ok filename, h2) ->
  truthy filename = true ->
  download_commons_raster env filename h2 = (Ok (Some b), h3) ->
  bytes_truthy (Some b) = true ->
  to_png_128 b = Raise e ->
  process_brand env brand h = (Ok (brand, false, lit "Error: " ++ exn_str e), h3).
Proof.
  intros Hs Hq Hl Hf Hd Hb Hc. unfold process_brand.
  rewrite (try_Raise _ _ h e h3); [reflexivity |].
  rewrite (bind_Ok _ _ _ _ _ Hs), Hq. cbn [negb].
  rewrite (bind_Ok _ _ _ _ _ Hl), Hf. cbn [negb].
  rewrite (bind_Ok _ _ _ _ _ Hd), Hb. cbn [negb].
  apply bind_Raise. unfold lift. rewrite Hc. reflexivity.
Qed.

Lemma process_brand_error_save brand h qid h1 filename h2 b h3 img e :
  wikidata_search_entity env brand h = (Ok qid, h1) ->
  truthy qid = true ->
  wikidata_get_logo_filename env qid h1 = (Ok filename, h2) ->
  truthy filename = true ->
  download_commons_raster env filename h2 = (Ok (Some b), h3) ->
  bytes_truthy (Some b) = true ->
  to_png_128 b = Ok (Some img) ->
  image_save env h3 (out_path env brand) img = Raise e ->
  process_brand env brand h
  = (Ok (brand, false, lit "Error: " ++ exn_str e), h3 ++ [EvSave (out_path env brand) img]).
Proof.
  intros Hs Hq Hl Hf Hd Hb Hc Hw.
  rewrite (process_brand_saved _ _ _ _ _ _ _ _ _ Hs Hq Hl Hf Hd Hb Hc), Hw.
  reflexivity.
Qed.

(** What any run of process_brand amounts to: it returns a record for its
    brand and raises nothing; it only adds requests and at most one save, the
    save being the last event; a success ends with the save of the brand's
    own file and carries the message OK. *)
Lemma process_brand_events brand h :
  exists r evs,
    process_brand env brand h = (Ok r, h ++ evs)
    /\ fst (fst r) = brand
    /\ ((Forall is_request evs /\ snd (fst r) = false)
        \/ (exists pre img,
              evs = pre ++ [EvSave (out_path env brand) img] /\ Forall is_request pre
              /\ (snd (fst r) = true -> r = (brand, true, lit "OK")))).
Proof.
  assert (Hapi : forall evs, Forall is_api evs -> Forall is_request evs).
  { intros evs F. eapply Forall_impl; [| exact F]. intros ev Hev. left. exact Hev. }
  assert (Hget : forall evs, Forall is_get evs -> Forall is_request evs).
  { intros evs F. eapply Forall_impl; [| exact F]. intros ev Hev. right. exact Hev. }
  destruct (wikidata_search_entity env brand h) as [[qid|e] h1] eqn:Hs;
    destruct (wikidata_search_entity_emits env brand _ _ _ Hs) as [evs1 [-> F1]].
  2:{ eexists _, evs1. rewrite (process_brand_error_resolution _ _ _ _ Hs).
      split; [reflexivity | split; [reflexivity | left; auto]]. }
  destruct (truthy qid) eqn:Hq.
  2:{ eexists _, evs1. rewrite (process_brand_no_entity _ _ _ _ Hs Hq).
      split; [reflexivity | split; [reflexivity | left; auto]]. }
  destruct (wikidata_get_logo_filename env qid (h ++ evs1)) as [[f|e] h2] eqn:Hl';
    destruct (wikidata_get_logo_filename_emits env qid _ _ _ Hl') as [evs2 [-> F2]].
  2:{ eexists _, (evs1 ++ evs2).
      rewrite (process_brand_error_fetch _ _ _ _ _ _ Hs Hq Hl'), <- app_assoc.
      split; [reflexivity | split; [reflexivity | left; split; [| reflexivity]]].
      apply Forall_app; auto. }
  destruct (truthy f) eqn:Hf.
  2:{ eexists _, (evs1 ++ evs2).
      rewrite (process_brand_no_logo _ _ _ _ _ _ Hs Hq Hl' Hf), <- app_assoc.
      split; [reflexivity | split; [reflexivity | left; split; [| reflexivity]]].
      apply Forall_app; auto. }
  destruct (download_commons_raster env f ((h ++ evs1) ++ evs2)) as [[b|e] h3] eqn:Hd;
    destruct (download_commons_raster_emits env f _ _ _ Hd) as [evs3 [-> F3]].
  2:{ eexists _, (evs1 ++ evs2 ++ evs3).
      rewrite (process_brand_error_download _ _ _ _ _ _ _ _ Hs Hq Hl' Hf Hd).
      rewrite <- !app_assoc.
      split; [reflexivity | split; [reflexivity | left; split; [| reflexivity]]].
      repeat (apply Forall_app; split); auto. }
  assert (F123 : Forall is_request (evs1 ++ evs2 ++ evs3)).
  { repeat (apply Forall_app; split); auto. }
  assert (Hh : ((h ++ evs1) ++ evs2) ++ evs3 = h ++ evs1 ++ evs2 ++ evs3).
  { rewrite <- !app_assoc. reflexivity. }
  destruct (bytes_truthy b) eqn:Hb.
  2:{ eexists _, (evs1 ++ evs2 ++ evs3).
      rewrite (process_brand_download_failed _ _ _ _ _ _ _ _ Hs Hq Hl' Hf Hd Hb), Hh.
      split; [reflexivity | split; [reflexivity | left; split; [exact F123 | reflexivity]]]. }
  destruct b as [b|]; [| discriminate].
  destruct (to_png_128 b) as [[img|]|e] eqn:Hc.
  - pose proof (process_brand_saved _ _ _ _ _ _ _ _ _ Hs Hq Hl' Hf Hd Hb Hc) as Hp.
    rewrite Hh in Hp.
    destruct (image_save env _ (out_path env brand) img) as [[]|e];
      eexists _, ((evs1 ++ evs2 ++ evs3) ++ [EvSave (out_path env brand) img]);
      rewrite Hp, <- !app_assoc;
      (split; [reflexivity | split; [reflexivity | right]]);
      exists (evs1 ++ evs2 ++ evs3), img;
      rewrite <- !app_assoc; repeat split; auto; discriminate.
  - eexists _, (evs1 ++ evs2 ++ evs3).
    rewrite (process_brand_conversion_failed _ _ _ _ _ _ _ _ Hs Hq Hl' Hf Hd Hb Hc), Hh.
    split; [reflexivity | split; [reflexivity | left; split; [exact F123 | reflexivity]]].
  - eexists _, (evs1 ++ evs2 ++ evs3).
    rewrite (process_brand_error_normalize _ _ _ _ _ _ _ _ _ Hs Hq Hl' Hf Hd Hb Hc), Hh.
    split; [reflexivity | split; [reflexivity | left; split; [exact F123 | reflexivity]]].
Qed.

End Stages.

(** ** The driver loop *)


Lemma saved_paths_app h1 h2 : saved_paths (h1 ++ h2) = saved_paths h1 ++ saved_paths h2.
Proof.
  induction h1 as [|ev h1 IH]; simpl.
  - reflexivity.
  - destruct ev; simpl; rewrite IH; reflexivity.
Qed.


Lemma saved_paths_requests evs : Forall is_request evs -> saved_paths evs = [].
Proof.
  induction 1 as [|ev evs Hev _ IH]; simpl.
  - reflexivity.
  - destruct ev; try exact IH. destruct Hev as [[]|[]].
Qed.



Section Driver.

Context (env : Env) {lib : PyLib}.


(** One turn of the loop: the brand is processed, its status line goes to
    the console, and then the loop goes on with the brands that remain; an
    exception of the console is the only thing that ends it. *)
Lemma main_loop_step brand more ok fail h r h1 :
  process_brand env brand h = (Ok r, h1) ->
  main_loop env (brand :: more) ok fail h
  = match console_print env h1 (status_line r) with
    | Ok _ =>
        main_loop env more
          (if succeeded r then ok + 1 else ok)
          (if succeeded r then fail else fail + 1)
          (h1 ++ [EvPrint (status_line r)])
    | Raise e => (Raise e, h1 ++ [EvPrint (status_line r)])
    end.
Proof.
  intro Hp. cbn [main_loop]. rewrite (bind_Ok _ _ _ _ _ Hp).
  unfold bind at 1, print at 1, perform at 1.
  destruct (console_print env h1 (status_line r)); [| reflexivity].
  unfold succeeded. destruct (snd (fst r)); reflexivity.
Qed.



End Driver.

(** ** C5: a failing stage ends the processing of its brand *)

Section Pipeline.

Context (env : Env) {lib : PyLib}.

(** C5. Whatever the brand and the history: when the resolver returns no
    entity the record is (brand, False, No Wikidata item found) and the two
    searches are the only events, so no attribute fetch and no download
    happened; when the attribute fetch gives no filename the record names
    the missing logo of the entity and only API requests were made, no
    download; when the download gives nothing the record is Download failed,
    whatever the normalizer would do, and nothing was written; when the
    normalizer returns None the record is Conversion failed and nothing was
    written. *)
Theorem process_brand_short_circuit (brand : str) (h : hist) :
  (forall qid h1,
     wikidata_search_entity env brand h = (Ok qid, h1) ->
     truthy qid = false ->
     process_brand env brand h = (Ok (brand, false, lit "No Wikidata item found"), h1)
     /\ h1 = h ++ [EvApi (search_params brand (lit "tr") 15);
                   EvApi (search_params brand (lit "en") 15)])
  /\ (forall qid h1 filename h2,
        wikidata_search_entity env brand h = (Ok qid, h1) ->
        truthy qid = true ->
        wikidata_get_logo_filename env qid h1 = (Ok filename, h2) ->
        truthy filename = false ->
        process_brand env brand h
        = (Ok (brand, false, lit "No logo (P154) for " ++ py_str qid), h2)
        /\ exists evs, h2 = h ++ evs /\ Forall is_api evs)
  /\ (forall qid h1 filename h2 img_bytes h3,
        wikidata_search_entity env brand h = (Ok qid, h1) ->
        truthy qid = true ->
        wikidata_get_logo_filename env qid h1 = (Ok filename, h2) ->
        truthy filename = true ->
        download_commons_raster env filename h2 = (Ok img_bytes, h3) ->
        bytes_truthy img_bytes = false ->
        process_brand env brand h = (Ok (brand, false, lit "Download failed"), h3)
        /\ exists evs, h3 = h ++ evs /\ Forall is_request evs)
  /\ (forall qid h1 filename h2 b h3,
        wikidata_search_entity env brand h = (Ok qid, h1) ->
        truthy qid = true ->
        wikidata_get_logo_filename env qid h1 = (Ok filename, h2) ->
        truthy filename = true ->
        download_commons_raster env filename h2 = (Ok (Some b), h3) ->
        bytes_truthy (Some b) = true ->
        to_png_128 b = Ok None ->
        process_brand env brand h = (Ok (brand, false, lit "Conversion failed"), h3)
        /\ exists evs, h3 = h ++ evs /\ Forall is_request evs).
Proof.
  assert (Hapi : forall evs, Forall is_api evs -> Forall is_request evs).
  { intros evs F. eapply Forall_impl; [| exact F]. intros ev Hev. left. exact Hev. }
  assert (Hget : forall evs, Forall is_get evs -> Forall is_request evs).
  { intros evs F. eapply Forall_impl; [| exact F]. intros ev Hev. right. exact Hev. }
  split; [| split; [| split]].
  - intros qid h1 Hs Hq. split.
    + exact (process_brand_no_entity env _ _ _ _ Hs Hq).
    + exact (proj2 (search_langs_falsy env _ _ _ _ _ Hs Hq)).
  - intros qid h1 filename h2 Hs Hq Hl Hf. split.
    + exact (process_brand_no_logo env _ _ _ _ _ _ Hs Hq Hl Hf).
    + destruct (wikidata_search_entity_emits env _ _ _ _ Hs) as [evs1 [-> F1]].
      destruct (wikidata_get_logo_filename_emits env _ _ _ _ Hl) as [evs2 [-> F2]].
      exists (evs1 ++ evs2). split; [symmetry; apply app_assoc |].
      apply Forall_app. split; assumption.
  - intros qid h1 filename h2 img_bytes h3 Hs Hq Hl Hf Hd Hb. split.
    + exact (process_brand_download_failed env _ _ _ _ _ _ _ _ Hs Hq Hl Hf Hd Hb).
    + destruct (wikidata_search_entity_emits env _ _ _ _ Hs) as [evs1 [-> F1]].
      destruct (wikidata_get_logo_filename_emits env _ _ _ _ Hl) as [evs2 [-> F2]].
      destruct (download_commons_raster_emits env _ _ _ _ Hd) as [evs3 [-> F3]].
      exists (evs1 ++ evs2 ++ evs3). split; [rewrite <- !app_assoc; reflexivity |].
      repeat (apply Forall_app; split); auto.
  - intros qid h1 filename h2 b h3 Hs Hq Hl Hf Hd Hb Hc. split.
    + exact (process_brand_conversion_failed env _ _ _ _ _ _ _ _ Hs Hq Hl Hf Hd Hb Hc).
    + destruct (wikidata_search_entity_emits env _ _ _ _ Hs) as [evs1 [-> F1]].
      destruct (wikidata_get_logo_filename_emits env _ _ _ _ Hl) as [evs2 [-> F2]].
      destruct (download_commons_raster_emits env _ _ _ _ Hd) as [evs3 [-> F3]].
      exists (evs1 ++ evs2 ++ evs3). split; [rewrite <- !app_assoc; reflexivity |].
      repeat (apply Forall_app; split); auto.
Qed.

(** ** C4: no exception leaves process_brand *)

(** C4, as the code has it. Every run of process_brand returns a record for
    its brand and raises nothing.  An exception that leaves the resolver, the
    attribute fetch, the downloader, the normalizer or the file write becomes
    the record (brand, False, Error: followed by the text of the exception).
    The loop of the driver then prints the status line of the brand, outside
    any try: when the console takes the line the loop goes on with the brands
    that remain, and when the print raises, that exception ends the loop and
    the remaining brands are not processed. *)
Theorem process_brand_catches (brand : str) (h : hist) :
  (exists r h1, process_brand env brand h = (Ok r, h1) /\ brand_of r = brand)
  /\ (forall e h1,
        wikidata_search_entity env brand h = (Raise e, h1) ->
        process_brand env brand h
        = (Ok (brand, false, lit "Error: " ++ exn_str e), h1))
  /\ (forall qid h1 e h2,
        wikidata_search_entity env brand h = (Ok qid, h1) ->
        truthy qid = true ->
        wikidata_get_logo_filename env qid h1 = (Raise e, h2) ->
        process_brand env brand h
        = (Ok (brand, false, lit "Error: " ++ exn_str e), h2))
  /\ (forall qid h1 filename h2 e h3,
        wikidata_search_entity env brand h = (Ok qid, h1) ->
        truthy qid = true ->
        wikidata_get_logo_filename env qid h1 = (Ok filename, h2) ->
        truthy filename = true ->
        download_commons_raster env filename h2 = (Raise e, h3) ->
        process_brand env brand h
        = (Ok (brand, false, lit "Error: " ++ exn_str e), h3))
  /\ (forall qid h1 filename h2 b h3 e,
        wikidata_search_entity env brand h = (Ok qid, h1) ->
        truthy qid = true ->
        wikidata_get_logo_filename env qid h1 = (Ok filename, h2) ->
        truthy filename = true ->
        download_commons_raster env filename h2 = (Ok (Some b), h3) ->
        bytes_truthy (Some b) = true ->
        to_png_128 b = Raise e ->
        process_brand env brand h
        = (Ok (brand, false, lit "Error: " ++ exn_str e), h3))
  /\ (forall qid h1 filename h2 b h3 img e,
        wikidata_search_entity env brand h = (Ok qid, h1) ->
        truthy qid = true ->
        wikidata_get_logo_filename env qid h1 = (Ok filename, h2) ->
        truthy filename = true ->
        download_commons_raster env filename h2 = (Ok (Some b), h3) ->
        bytes_truthy (Some b) = true ->
        to_png_128 b = Ok (Some img) ->
        image_save env h3 (out_path env brand) img = Raise e ->
        process_brand env brand h
        = (Ok (brand, false, lit "Error: " ++ exn_str e),
           h3 ++ [EvSave (out_path env brand) img]))
  /\ (forall more ok fail,
        exists r h1,
          process_brand env brand h = (Ok r, h1)
          /\ (console_print env h1 (status_line r) = Ok tt ->
              main_loop env (brand :: more) ok fail h
              = main_loop env more
                  (if succeeded r then ok + 1 else ok)
                  (if succeeded r then fail else fail + 1)
                  (h1 ++ [EvPrint (status_line r)]))
          /\ (forall e,
                console_print env h1 (status_line r) = Raise e ->
                main_loop env (brand :: more) ok fail h
                = (Raise e, h1 ++ [EvPrint (status_line r)]))).
Proof.
  destruct (process_brand_events env brand h) as (r & evs & Hp & Hb & _).
  split; [| split; [| split; [| split; [| split; [| split]]]]].
  - exists r, (h ++ evs). split; assumption.
  - intros. apply process_brand_error_resolution; assumption.
  - intros. eapply process_brand_error_fetch; eassumption.
  - intros. eapply process_brand_error_download; eassumption.
  - intros. eapply process_brand_error_normalize; eassumption.
  - intros. eapply process_brand_error_save; eassumption.
  - intros more ok fail. exists r, (h ++ evs). split; [exact Hp | split].
    + intro Hcon. rewrite (main_loop_step env _ _ _ _ _ _ _ Hp), Hcon. reflexivity.
    + intros e Hcon. rewrite (main_loop_step env _ _ _ _ _ _ _ Hp), Hcon. reflexivity.
Qed.

(** ** C8: the file of a successfully processed brand *)

Lemma app_inj_head (a b c : str) : a ++ b = a ++ c -> b = c.
Proof. induction a as [|x a IH]; simpl; intro H; [exact H | injection H as H; auto]. Qed.

Lemma app_inj_last (a b c : str) : a ++ c = b ++ c -> a = b.
Proof.
  intro H. apply (f_equal (@rev N)) in H. rewrite !rev_app_distr in H.
  apply app_inj_head in H. rewrite <- (rev_involutive a), H. apply rev_involutive.
Qed.

Lemma re_sub_underscore_safe (name : str) :
  Forall (fun c => SAFE_FILENAME_PATTERN c = false) name ->
  re_sub_underscore name = name.
Proof.
  unfold re_sub_underscore. induction 1 as [|c name Hc _ IH]; simpl.
  - reflexivity.
  - rewrite Hc, IH. reflexivity.
Qed.

(** C8, as the code has it. A successfully processed brand adds exactly one
    save to the history, its last event, and the file saved is the output
    directory joined with the sanitized brand and the extension .png; the
    sanitized brand is the brand with each character of the unsafe class
    replaced by an underscore, then trimmed.  Two brands are written to
    distinct files whenever their sanitized forms differ, in particular
    whenever both are trimmed and hold no unsafe character. *)
Theorem process_brand_output_file (brand : str) (h : hist) :
  (forall b msg h1,
     process_brand env brand h = (Ok (b, true, msg), h1) ->
     exists pre img,
       h1 = h ++ pre ++ [EvSave (out_path env brand) img]
       /\ Forall is_request pre
       /\ saved_paths h1 = saved_paths h ++ [out_path env brand])
  /\ out_path env brand
     = script_dir env ++ lit "/logos/"
       ++ strip (map (fun c => if SAFE_FILENAME_PATTERN c then 95%N else c) brand)
       ++ lit ".png"
  /\ (forall other,
        sanitize_filename brand <> sanitize_filename other ->
        out_path env brand <> out_path env other)
  /\ (forall other,
        trimmed brand -> Forall (fun c => SAFE_FILENAME_PATTERN c = false) brand ->
        trimmed other -> Forall (fun c => SAFE_FILENAME_PATTERN c = false) other ->
        brand <> other ->
        out_path env brand <> out_path env other).
Proof.
  assert (Hinj : forall other, out_path env brand = out_path env other ->
                 sanitize_filename brand = sanitize_filename other).
  { intros other H. unfold out_path, path_join in H.
    apply app_inj_head in H. apply app_inj_head in H.
    apply app_inj_last in H. exact H. }
  assert (Hid : forall b, trimmed b -> Forall (fun c => SAFE_FILENAME_PATTERN c = false) b ->
                sanitize_filename b = b).
  { intros b Ht Hs. unfold sanitize_filename.
    rewrite (re_sub_underscore_safe _ Hs). apply strip_fixed. exact Ht. }
  split; [| split; [| split]].
  - intros b msg h1 Hp.
    destruct (process_brand_events env brand h) as (r & evs & Hp' & _ & Hev).
    rewrite Hp in Hp'. injection Hp' as <- ->.
    destruct Hev as [[_ Hf] | (pre & img & -> & F & _)]; [discriminate |].
    exists pre, img. repeat split; try assumption.
    rewrite !saved_paths_app, (saved_paths_requests _ F). reflexivity.
  - unfold out_path, OUTPUT_DIR, path_join, sanitize_filename, re_sub_underscore, underscore.
    rewrite <- !app_assoc. reflexivity.
  - intros other Hne Heq. apply Hne. apply Hinj. exact Heq.
  - intros other Ht Hs Ht' Hs' Hne Heq. apply Hne.
    rewrite <- (Hid brand Ht Hs), <- (Hid other Ht' Hs'). apply Hinj. exact Heq.
Qed.

End Pipeline.

(** ** C6 and C10: the exit status and the report *)


Section Main.

Context (env : Env) {lib : PyLib}.






End Main.

(** ** C2 and C3: the normalizer *)

Lemma ratio_eq_one (w h : Z) :
  0 < h ->
  Qeq_bool (inject_Z w / inject_Z h) (inject_Z 112 / inject_Z 112) = true <-> w = h.
Proof.
  intro Hh. rewrite Qeq_bool_iff.
  destruct h as [|p|p]; try lia.
  unfold Qeq, Qdiv, Qmult, Qinv, inject_Z. simpl. lia.
Qed.

Lemma ratio_le_one (w h : Z) :
  0 < h ->
  Qle_bool (inject_Z w / inject_Z h) (inject_Z 112 / inject_Z 112) = true <-> w <= h.
Proof.
  intro Hh. rewrite Qle_bool_iff.
  destruct h as [|p|p]; try lia.
  unfold Qle, Qdiv, Qmult, Qinv, inject_Z. simpl. lia.
Qed.

(** The rounded side against the exact scaled side a * c / b. *)
Lemma py_round_scaled {lib : PyLib} (a b c : Z) :
  0 <= a -> 0 < b -> 0 <= c ->
  let r := py_round (inject_Z a / inject_Z b * inject_Z c)%Q in
  a * c < b * (r + 1) /\ 2 * b * r <= 2 * a * c + b.
Proof.
  intros Ha Hb Hc r.
  assert (Hq : (0 <= inject_Z a / inject_Z b * inject_Z c)%Q).
  { destruct b as [|p|p]; try lia.
    unfold Qle, Qdiv, Qmult, Qinv, inject_Z. simpl. nia. }
  pose proof (py_round_near _ Hq) as H.
  fold r in H. destruct H as [H1 H2].
  destruct b as [|p|p]; try lia.
  unfold Qle, Qlt, Qminus, Qplus, Qopp, Qdiv, Qmult, Qinv, inject_Z in H1, H2.
  simpl in H1, H2.
  rewrite ?Pos.mul_1_r, ?Pos.mul_1_l, ?Z.mul_1_r, ?Z.mul_1_l in H1, H2.
  lia.
Qed.

Section Normalizer.

Context {lib : PyLib}.

Lemma Image_resize_Ok img a b img' :
  Image_resize img (a, b) = Ok img' ->
  width img' = a /\ height img' = b
  /\ (img' = img \/ img' = Image a b (resample img a b))
  /\ (resize_refuses_empty = true -> img' = img \/ 1 <= a /\ 1 <= b).
Proof.
  unfold Image_resize. cbn [fst snd].
  destruct ((a =? width img) && (b =? height img))%bool eqn:Hsame.
  - intro H. injection H as <-.
    apply andb_true_iff in Hsame. destruct Hsame as [Ha Hb].
    apply Z.eqb_eq in Ha, Hb. auto.
  - destruct (((a <? 1) || (b <? 1)) && resize_refuses_empty)%bool eqn:Hsmall;
      [discriminate |].
    intro H. injection H as <-. cbn [width height].
    repeat split; auto.
    intro Href. rewrite Href, andb_true_r in Hsmall.
    apply orb_false_iff in Hsmall. destruct Hsmall as [Ha Hb].
    apply Z.ltb_ge in Ha, Hb. auto.
Qed.

Lemma Image_resize_fits img a b :
  (1 <= a /\ 1 <= b) \/ resize_refuses_empty = false ->
  exists img', Image_resize img (a, b) = Ok img'.
Proof.
  intros Hfit. unfold Image_resize. cbn [fst snd].
  destruct ((a =? width img) && (b =? height img))%bool; [eauto |].
  destruct Hfit as [[Ha Hb] | ->].
  - destruct (Z.ltb_spec a 1); [lia |]. destruct (Z.ltb_spec b 1); [lia |].
    simpl. eauto.
  - rewrite andb_false_r. eauto.
Qed.

(** The size ImageOps.contain asks the resizer for, in a box of 112 by 112. *)
Lemma ImageOps_contain_size img :
  0 < width img -> 0 < height img ->
  exists a b,
    ImageOps_contain img (112, 112) = Image_resize img (a, b)
    /\ (height img <= width img ->
        a = 112 /\ scaled_side b (height img) (width img))
    /\ (width img <= height img ->
        b = 112 /\ scaled_side a (width img) (height img)).
Proof.
  intros Hw Hh. unfold ImageOps_contain.
  destruct (Z.eqb_spec (height img) 0) as [H0|_]; [lia |].
  cbn [fst snd].
  destruct (Qeq_bool (inject_Z (width img) / inject_Z (height img))
                     (inject_Z 112 / inject_Z 112)) eqn:Heq; cbn [negb].
  - apply ratio_eq_one in Heq; [| exact Hh].
    exists 112, 112. split; [reflexivity |]. split; intros _; (split; [reflexivity | unfold scaled_side; lia]).
  - assert (Hne : width img <> height img).
    { intro E. apply (ratio_eq_one _ _ Hh) in E. rewrite E in Heq. discriminate. }
    destruct (Qle_bool (inject_Z (width img) / inject_Z (height img))
                       (inject_Z 112 / inject_Z 112)) eqn:Hle; cbn [negb].
    + apply ratio_le_one in Hle; [| exact Hh].
      assert (Hr := py_round_scaled (width img) (height img) 112 ltac:(lia) Hh ltac:(lia)).
      cbv zeta in Hr.
      set (r := py_round (inject_Z (width img) / inject_Z (height img) * inject_Z 112)%Q) in *.
      exists r, 112. split; [| split].
      * destruct (Z.eqb_spec r 112) as [->|_]; reflexivity.
      * intro. lia.
      * intros _. split; [reflexivity | exact Hr].
    + assert (Hgt : height img < width img).
      { destruct (Z.le_gt_cases (width img) (height img)) as [Hc|Hc]; [| exact Hc].
        apply (ratio_le_one _ _ Hh) in Hc. rewrite Hc in Hle. discriminate. }
      assert (Hr := py_round_scaled (height img) (width img) 112 ltac:(lia) Hw ltac:(lia)).
      cbv zeta in Hr.
      set (r := py_round (inject_Z (height img) / inject_Z (width img) * inject_Z 112)%Q) in *.
      exists 112, r. split; [| split].
      * destruct (Z.eqb_spec r 112) as [->|_]; reflexivity.
      * intros _. split; [reflexivity | exact Hr].
      * intro. lia.
Qed.

Lemma scaled_side_bounds side' side long :
  0 < side -> side <= long -> scaled_side side' side long ->
  0 <= side' <= 112 /\ (long <= 112 * side -> 1 <= side').
Proof. unfold scaled_side. intros Hs Hl [H1 H2]. split; [split |]; nia. Qed.

(** What ImageOps.contain returns in a box of 112 by 112, when it returns. *)
Lemma ImageOps_contain_fit img img' :
  0 < width img -> 0 < height img ->
  ImageOps_contain img (112, 112) = Ok img' ->
  0 <= width img' /\ 0 <= height img'
  /\ (img' = img \/ img' = Image (width img') (height img')
                             (resample img (width img') (height img')))
  /\ (height img <= width img ->
      width img' = 112 /\ scaled_side (height img') (height img) (width img))
  /\ (width img <= height img ->
      height img' = 112 /\ scaled_side (width img') (width img) (height img)).
Proof.
  intros Hw Hh Hc.
  destruct (ImageOps_contain_size img Hw Hh) as (a & b & Heq & Hwide & Htall).
  rewrite Heq in Hc. apply Image_resize_Ok in Hc.
  destruct Hc as (Ha & Hb & Hpix & _). rewrite Ha, Hb.
  assert (Hpos : 0 <= a /\ 0 <= b).
  { destruct (Z.le_ge_cases (height img) (width img)) as [Hle|Hle].
    - destruct (Hwide Hle) as [-> Hs].
      destruct (scaled_side_bounds _ _ _ Hh Hle Hs). lia.
    - destruct (Htall Hle) as [-> Hs].
      destruct (scaled_side_bounds _ _ _ Hw Hle Hs). lia. }
  split; [lia | split; [lia | split; [| split]]].
  - destruct Hpix as [-> | ->]; [left | right]; reflexivity.
  - exact Hwide.
  - exact Htall.
Qed.

Lemma contain_max_side img img' :
  0 < width img -> 0 < height img ->
  ImageOps_contain img (112, 112) = Ok img' ->
  Z.max (width img') (height img') = 112.
Proof.
  intros Hw Hh Hc.
  destruct (ImageOps_contain_fit _ _ Hw Hh Hc) as (_ & _ & _ & Hwide & Htall).
  destruct (Z.le_ge_cases (height img) (width img)) as [Hle|Hle].
  - destruct (Hwide Hle) as [Ha Hb].
    destruct (scaled_side_bounds _ _ _ Hh Hle Hb). lia.
  - destruct (Htall Hle) as [Hb Ha].
    destruct (scaled_side_bounds _ _ _ Hw Hle Ha). lia.
Qed.

(** An image at most 112 times as long as it is wide is never refused, and
    no image is when the resizer takes a side of zero pixels. *)
Lemma ImageOps_contain_returns_if img :
  0 < width img -> 0 < height img ->
  (width img <= 112 * height img /\ height img <= 112 * width img)
  \/ resize_refuses_empty = false ->
  exists img', ImageOps_contain img (112, 112) = Ok img'.
Proof.
  intros Hw Hh Hcase.
  destruct (ImageOps_contain_size img Hw Hh) as (a & b & Heq & Hwide & Htall).
  rewrite Heq. apply Image_resize_fits.
  destruct Hcase as [[Hr1 Hr2] | Htol]; [left | right; exact Htol].
  destruct (Z.le_ge_cases (height img) (width img)) as [Hle|Hle].
  - destruct (Hwide Hle) as [-> Hs].
    destruct (scaled_side_bounds _ _ _ Hh Hle Hs) as [_ Hone]. lia.
  - destruct (Htall Hle) as [-> Hs].
    destruct (scaled_side_bounds _ _ _ Hw Hle Hs) as [_ Hone]. lia.
Qed.

Lemma ImageOps_contain_returns img :
  0 < width img -> 0 < height img ->
  width img <= 112 * height img -> height img <= 112 * width img ->
  exists img', ImageOps_contain img (112, 112) = Ok img'.
Proof.
  intros Hw Hh Hr1 Hr2. apply ImageOps_contain_returns_if; auto.
Qed.

(** The sides of the scaled content are at least one pixel for an image at
    most 112 times as long as it is wide. *)
Lemma ImageOps_contain_sides img img' :
  0 < width img -> 0 < height img ->
  width img <= 112 * height img -> height img <= 112 * width img ->
  ImageOps_contain img (112, 112) = Ok img' ->
  1 <= width img' /\ 1 <= height img'.
Proof.
  intros Hw Hh Hr1 Hr2 Hc.
  destruct (ImageOps_contain_fit _ _ Hw Hh Hc) as (_ & _ & _ & Hwide & Htall).
  destruct (Z.le_ge_cases (height img) (width img)) as [Hle|Hle].
  - destruct (Hwide Hle) as [Ha Hs].
    destruct (scaled_side_bounds _ _ _ Hh Hle Hs) as [_ Hone]. lia.
  - destruct (Htall Hle) as [Ha Hs].
    destruct (scaled_side_bounds _ _ _ Hw Hle Hs) as [_ Hone]. lia.
Qed.

End Normalizer.

Section Canvas.

Context {lib : PyLib}.

Lemma Image_resize_same img :
  Image_resize img (width img, height img) = Ok img.
Proof. unfold Image_resize. cbn [fst snd]. rewrite !Z.eqb_refl. reflexivity. Qed.

Lemma to_png_128_inv (b : bytes) img canvas :
  image_open_rgba b = Ok img ->
  to_png_128 b = Ok (Some canvas) ->
  exists img',
    ImageOps_contain img (112, 112) = Ok img'
    /\ canvas = Image_paste (Image_new canvas_size transparent) img' (paste_offset img').
Proof.
  intros Hd. unfold to_png_128. rewrite Hd.
  change (max_w, max_h) with (112, 112).
  destruct (ImageOps_contain img (112, 112)) as [img'|e]; [| discriminate].
  intro H. injection H as <-. exists img'. split; reflexivity.
Qed.

(** C2, as the code has it. For a decodable image with positive sides: the
    normalizer returns a canvas if neither side is more than 112 times the
    other, and for every image when the resizer takes a side of zero pixels;
    and whenever it returns a canvas, the canvas is 128 by 128, the scaled
    content has its larger side equal to 112 and its other side equal to the
    proportional size rounded to a pixel (at least 1 for an image at most 112
    times as long as it is wide), the content sits at least 8 pixels from
    every edge with margins that differ by at most one pixel, every pixel
    outside the content is fully transparent, and every pixel inside it is
    the content pixel blended onto transparency under the content's own
    alpha: transparent where that alpha is 0, the content pixel itself where
    it is 255 and, for a blend that mixes, an alpha within one unit of
    a * a / 255 where it is a, which is less than a from 2 to 253. *)
Theorem to_png_128_canvas (b : bytes) (img : image) :
  image_open_rgba b = Ok img -> 0 < width img -> 0 < height img ->
  ((width img <= 112 * height img /\ height img <= 112 * width img)
   \/ resize_refuses_empty = false ->
   exists canvas, to_png_128 b = Ok (Some canvas))
  /\ (forall canvas,
        to_png_128 b = Ok (Some canvas) ->
        exists img',
          ImageOps_contain img (112, 112) = Ok img'
          /\ width canvas = 128 /\ height canvas = 128
          /\ Z.max (width img') (height img') = 112
          /\ 0 <= width img' /\ 0 <= height img'
          /\ (width img <= 112 * height img -> height img <= 112 * width img ->
              1 <= width img' /\ 1 <= height img')
          /\ (height img <= width img ->
              scaled_side (height img') (height img) (width img))
          /\ (width img <= height img ->
              scaled_side (width img') (width img) (height img))
          /\ let ox := fst (paste_offset img') in
             let oy := snd (paste_offset img') in
             8 <= ox /\ 8 <= oy
             /\ ox + width img' <= 120 /\ oy + height img' <= 120
             /\ 0 <= (128 - width img' - ox) - ox <= 1
             /\ 0 <= (128 - height img' - oy) - oy <= 1
             /\ (forall x y,
                   ~ (ox <= x < ox + width img' /\ oy <= y < oy + height img') ->
                   pixel canvas x y = transparent)
             /\ (forall x y,
                   ox <= x < ox + width img' -> oy <= y < oy + height img' ->
                   let p := pixel img' (x - ox) (y - oy) in
                   pixel canvas x y = blend transparent p (alpha p)
                   /\ (alpha p = 0 -> pixel canvas x y = transparent)
                   /\ (alpha p = 255 -> pixel canvas x y = p)
                   /\ (blend_mixes -> pixel_ok p ->
                       Z.abs (255 * alpha (pixel canvas x y) - alpha p * alpha p) < 255
                       /\ (2 <= alpha p <= 253 ->
                           alpha (pixel canvas x y) < alpha p)))).
Proof.
  intros Hd Hw Hh. split.
  - intros Hcase.
    destruct (ImageOps_contain_returns_if img Hw Hh Hcase) as [img' Hc].
    unfold to_png_128. rewrite Hd. change (max_w, max_h) with (112, 112).
    rewrite Hc. eauto.
  - intros canvas Hrun.
    destruct (to_png_128_inv _ _ _ Hd Hrun) as (img' & Hc & ->).
    exists img'.
    destruct (ImageOps_contain_fit _ _ Hw Hh Hc) as (H1 & H2 & _ & Hwide & Htall).
    pose proof (contain_max_side _ _ Hw Hh Hc) as Hmax.
    split; [exact Hc |]. split; [reflexivity |]. split; [reflexivity |].
    split; [exact Hmax |]. split; [exact H1 |]. split; [exact H2 |].
    split; [intros Hr1 Hr2; exact (ImageOps_contain_sides _ _ Hw Hh Hr1 Hr2 Hc) |].
    split; [intro Hle; exact (proj2 (Hwide Hle)) |].
    split; [intro Hle; exact (proj2 (Htall Hle)) |].
    unfold paste_offset. cbn [fst snd canvas_size].
    assert (Hw' : width img' <= 112) by lia.
    assert (Hh' : height img' <= 112) by lia.
    pose proof (Z.div_mod (128 - width img') 2 ltac:(lia)) as Dx.
    pose proof (Z.mod_pos_bound (128 - width img') 2 ltac:(lia)) as Mx.
    pose proof (Z.div_mod (128 - height img') 2 ltac:(lia)) as Dy.
    pose proof (Z.mod_pos_bound (128 - height img') 2 ltac:(lia)) as My.
    repeat (split; [lia |]).
    split.
    + intros x y Hout. cbn [Image_paste pixel Image_new fst snd].
      destruct ((0 <=? x - (128 - width img') / 2)
                && (x - (128 - width img') / 2 <? width img')
                && (0 <=? y - (128 - height img') / 2)
                && (y - (128 - height img') / 2 <? height img'))%bool eqn:Hin;
        [| reflexivity].
      exfalso. apply Hout.
      repeat (apply andb_true_iff in Hin; destruct Hin as [Hin ?]).
      apply Z.leb_le in Hin. apply Z.ltb_lt in H. apply Z.leb_le in H0.
      apply Z.ltb_lt in H3. lia.
    + intros x y Hx Hy. cbn [Image_paste pixel Image_new fst snd].
      assert (Hin : ((0 <=? x - (128 - width img') / 2)
                     && (x - (128 - width img') / 2 <? width img')
                     && (0 <=? y - (128 - height img') / 2)
                     && (y - (128 - height img') / 2 <? height img'))%bool = true).
      { repeat (apply andb_true_iff; split);
          first [apply Z.leb_le; lia | apply Z.ltb_lt; lia]. }
      rewrite Hin.
      set (p := pixel img' (x - (128 - width img') / 2) (y - (128 - height img') / 2)).
      split; [reflexivity | split; [| split]].
      * intros ->. apply blend_0.
      * intros ->. apply blend_255.
      * intros Hmix Hp.
        assert (Hrange : 0 <= alpha p <= 255) by (destruct Hp as (_ & _ & _ & Ha); exact Ha).
        assert (Ht : pixel_ok transparent) by (unfold pixel_ok, transparent; simpl; lia).
        destruct (Hmix transparent p (alpha p) Ht Hp Hrange) as (_ & _ & _ & Ha).
        unfold near_mix in Ha. cbn [alpha transparent] in Ha.
        rewrite Z.mul_0_l, Z.add_0_r in Ha.
        split; [exact Ha |]. intro Hmid. nia.
Qed.

(** C3, as the code has it. The scaled content of a returned canvas always
    has its larger side equal to 112: a source whose larger side is 112 is
    pasted unchanged, a source that is smaller than the box is scaled up,
    and a source that is larger is scaled down. *)
Theorem to_png_128_rescales (b : bytes) (img canvas : image) :
  image_open_rgba b = Ok img -> 0 < width img -> 0 < height img ->
  to_png_128 b = Ok (Some canvas) ->
  exists img',
    ImageOps_contain img (112, 112) = Ok img'
    /\ canvas = Image_paste (Image_new canvas_size transparent) img' (paste_offset img')
    /\ Z.max (width img') (height img') = 112
    /\ (Z.max (width img) (height img) = 112 -> img' = img)
    /\ (Z.max (width img) (height img) < 112 ->
        width img < width img' /\ height img <= height img'
        \/ width img <= width img' /\ height img < height img')
    /\ (112 < Z.max (width img) (height img) ->
        width img' <= width img /\ height img' <= height img
        /\ (width img' < width img \/ height img' < height img)).
Proof.
  intros Hd Hw Hh Hrun.
  destruct (to_png_128_inv _ _ _ Hd Hrun) as (img' & Hc & Hcanvas).
  exists img'.
  pose proof (contain_max_side _ _ Hw Hh Hc) as Hmax.
  destruct (ImageOps_contain_fit _ _ Hw Hh Hc) as (H1 & H2 & _ & Hwide & Htall).
  unfold scaled_side in Hwide, Htall.
  split; [exact Hc |]. split; [exact Hcanvas |]. split; [exact Hmax |].
  split; [| split].
  - intro H112.
    destruct (ImageOps_contain_size img Hw Hh) as (a & c & Heq & Ha & Hb).
    unfold scaled_side in Ha, Hb.
    assert (Hsize : a = width img /\ c = height img).
    { destruct (Z.le_ge_cases (height img) (width img)) as [Hle|Hle].
      - destruct (Ha Hle) as [-> Hs]. assert (width img = 112) by lia. nia.
      - destruct (Hb Hle) as [-> Hs]. assert (height img = 112) by lia. nia. }
    destruct Hsize as [-> ->].
    rewrite Heq, Image_resize_same in Hc. injection Hc as <-. reflexivity.
  - intro Hsmall.
    destruct (Z.le_ge_cases (height img) (width img)) as [Hle|Hle].
    + destruct (Hwide Hle) as [Ha Hs]. left. split; [lia | nia].
    + destruct (Htall Hle) as [Ha Hs]. right. split; [nia | lia].
  - intro Hbig.
    destruct (Z.le_ge_cases (height img) (width img)) as [Hle|Hle].
    + destruct (Hwide Hle) as [Ha Hs]. split; [lia | split; [nia | left; lia]].
    + destruct (Htall Hle) as [Ha Hs]. split; [nia | split; [lia | right; lia]].
Qed.

End Canvas.

(** * The properties at work on the sample worlds *)

(** C1 at work: two candidates under the Turkish label, the second one with
    a logo; the resolver fetches the attribute of both and returns the
    second, and never asks for the English label. *)
Lemma wikidata_search_entity_rules_witness :
  wikidata_search_entity two_candidates_world (lit "Acme") []
  = (Ok (JStr (lit "Q7")),
     [EvApi (search_params (lit "Acme") (lit "tr") 15);
      EvApi (claims_params (JStr (lit "Q5")));
      EvApi (claims_params (JStr (lit "Q7")))]).
Proof.
  apply (proj1 (proj2 (wikidata_search_entity_rules two_candidates_world (lit "Acme") [])))
    with (pre := [JStr (lit "Q5")]) (post := [])
         (h1 := [EvApi (search_params (lit "Acme") (lit "tr") 15)])
         (h2 := [EvApi (search_params (lit "Acme") (lit "tr") 15);
                 EvApi (claims_params (JStr (lit "Q5")))])
         (filename := JStr (lit "Acme_logo.svg"));
    reflexivity.
Defined.

(** C7 at work: a comment line, a padded name ended by CR LF and an empty
    line give the one trimmed name. *)
Lemma read_brands_lines_witness :
  read_brands acme_world (BRANDS_FILE acme_world) []
  = (Ok [lit "Acme Corp"], [EvOpen (BRANDS_FILE acme_world)]).
Proof.
  exact (proj1 (read_brands_lines acme_world (BRANDS_FILE acme_world) acme_text []
                  eq_refl)).
Defined.

(** C5 at work: nothing is found in either language, and the two searches are
    all that happens. *)
Lemma process_brand_short_circuit_witness :
  process_brand empty_world (lit "Unknown Brand X") []
  = (Ok (lit "Unknown Brand X", false, lit "No Wikidata item found"),
     [EvApi (search_params (lit "Unknown Brand X") (lit "tr") 15);
      EvApi (search_params (lit "Unknown Brand X") (lit "en") 15)]).
Proof.
  exact (proj1 (proj1 (process_brand_short_circuit empty_world (lit "Unknown Brand X") [])
                  JNull _ eq_refl eq_refl)).
Defined.

(** C4 at work: the API cannot be reached, the exception of the first search
    becomes the record. *)
Lemma process_brand_catches_witness :
  process_brand offline_world (lit "Acme Corp") []
  = (Ok (lit "Acme Corp", false, lit "Error: connection refused"),
     [EvApi (search_params (lit "Acme Corp") (lit "tr") 15)]).
Proof.
  exact (proj1 (proj2 (process_brand_catches offline_world (lit "Acme Corp") []))
           network_error _ eq_refl).
Defined.

(** C8 at work: the one file written for Acme Corp. *)
Lemma process_brand_output_file_witness :
  saved_paths (snd (process_brand acme_world (lit "Acme Corp") []))
  = [lit "/srv/auto-brand-logos/logos/Acme Corp.png"].
Proof.
  assert (Hrun : process_brand acme_world (lit "Acme Corp") []
                 = (Ok (lit "Acme Corp", true, lit "OK"),
                    snd (process_brand acme_world (lit "Acme Corp") [])))
    by (vm_compute; reflexivity).
  destruct (proj1 (process_brand_output_file acme_world (lit "Acme Corp") [])
              _ _ _ Hrun)
    as (pre & img & _ & _ & Hs).
  rewrite Hs. reflexivity.
Defined.

(** C8 as first stated fails: two distinct brands, both processed
    successfully, are written to the same file. *)
Lemma sanitize_filename_collision :
  lit "a/b" <> lit "a:b"
  /\ fst (main_loop acme_world [lit "a/b"; lit "a:b"] 0 0 []) = Ok (2, 0)
  /\ saved_paths (snd (main_loop acme_world [lit "a/b"; lit "a:b"] 0 0 []))
     = [lit "/srv/auto-brand-logos/logos/a_b.png";
        lit "/srv/auto-brand-logos/logos/a_b.png"].
Proof.
  split; [discriminate | split; vm_compute; reflexivity].
Qed.

(** C4 as first stated fails: the exception of the resolver is caught and
    becomes the record of the first brand, and yet the batch does not go on:
    the status line cannot be printed, the exception of print ends the loop
    and the second brand is never processed. *)
Lemma main_loop_print_raises :
  process_brand narrow_offline_world sok []
  = (Ok (sok, false, lit "Error: connection refused"),
     [EvApi (search_params sok (lit "tr") 15)])
  /\ main_loop narrow_offline_world [sok; lit "Acme"] 0 0 []
     = (Raise (Exception "UnicodeEncodeError"
                 (lit "'charmap' codec can't encode character")),
        [EvApi (search_params sok (lit "tr") 15);
         EvPrint (status_line (sok, false, lit "Error: connection refused"))]).
Proof. split; reflexivity. Qed.





(** The blend of the reference library mixes. *)
Lemma mix_blend_mixes : @blend_mixes RefLib.
Proof.
  assert (Hmix : forall d s m, near_mix (mix d s m) d s m).
  { intros d s m. unfold near_mix, mix.
    pose proof (Z.div_mod (s * m + d * (255 - m)) 255 ltac:(lia)) as Hd.
    pose proof (Z.mod_pos_bound (s * m + d * (255 - m)) 255 ltac:(lia)) as Hm.
    lia. }
  intros dst src m _ _ _. cbn [blend RefLib mix_blend red green blue alpha].
  repeat split; apply Hmix.
Qed.

(** C2 at work: a raster of 300 by 150 is normalized to a canvas. *)
Lemma to_png_128_canvas_witness :
  exists canvas, to_png_128 red_300x150 = Ok (Some canvas).
Proof.
  assert (Hd : image_open_rgba red_300x150 = Ok (decoded red_300x150))
    by reflexivity.
  apply (proj1 (to_png_128_canvas red_300x150 (decoded red_300x150)
                  Hd eq_refl eq_refl)).
  left. split; vm_compute; discriminate.
Defined.

(** C2 as first stated fails: the transparency of the source is not
    preserved.  A raster of red at alpha 128 is normalized to a canvas whose
    content is darker and has alpha 64: pasted under its own alpha onto the
    transparent canvas, each pixel is mixed with transparency. *)
Lemma to_png_128_half_transparent :
  image_open_rgba half_red_40x40 = Ok (decoded half_red_40x40)
  /\ pixel (decoded half_red_40x40) 20 20 = RGBA 255 0 0 128
  /\ to_png_128 half_red_40x40 = Ok (Some (canvas_of half_red_40x40))
  /\ pixel (canvas_of half_red_40x40) 64 64 = RGBA 128 0 0 64.
Proof. repeat split; reflexivity. Qed.

(** C3 at work: the 300 by 150 raster is scaled down to 112 by 56. *)
Lemma to_png_128_rescales_witness :
  exists img',
    ImageOps_contain (decoded red_300x150) (112, 112) = Ok img'
    /\ Z.max (width img') (height img') = 112
    /\ width img' <= 300 /\ height img' <= 150.
Proof.
  assert (Hd : image_open_rgba red_300x150 = Ok (decoded red_300x150))
    by reflexivity.
  assert (Hrun : to_png_128 red_300x150 = Ok (Some (canvas_of red_300x150)))
    by reflexivity.
  destruct (to_png_128_rescales red_300x150 (decoded red_300x150)
              (canvas_of red_300x150) Hd eq_refl eq_refl Hrun)
    as (img' & Hc & _ & Hmax & _ & _ & Hbig).
  exists img'. split; [exact Hc | split; [exact Hmax |]].
  destruct Hbig as (Hw & Hh & _); [vm_compute; reflexivity |].
  split; assumption.
Defined.

(** C3 as first stated fails: a raster of 10 by 10 fits in the box and is
    nevertheless scaled up to 112 by 112; the canvas is opaque at (8, 8),
    where a 10 by 10 content pasted in the centre would leave it
    transparent. *)
Lemma to_png_128_scales_up :
  image_open_rgba small_10x10 = Ok (decoded small_10x10)
  /\ width (decoded small_10x10) = 10 /\ height (decoded small_10x10) = 10
  /\ (exists img',
        ImageOps_contain (decoded small_10x10) (112, 112) = Ok img'
        /\ width img' = 112 /\ height img' = 112)
  /\ to_png_128 small_10x10 = Ok (Some (canvas_of small_10x10))
  /\ pixel (canvas_of small_10x10) 8 8 = RGBA 255 0 0 255.
Proof.
  repeat split; try reflexivity.
  eexists. repeat split; reflexivity.
Qed.

(** * Further properties of the script *)

(** ** The logo attribute fetcher and the candidate search *)

Section Api.

Context (env : Env) {lib : PyLib}.

(** A fetch is one request to the API, for the claims of the entity. *)
Lemma wikidata_get_logo_filename_request qid h :
  snd (wikidata_get_logo_filename env qid h) = h ++ [EvApi (claims_params qid)].
Proof.
  unfold wikidata_get_logo_filename, bind, api_get, perform, lift, try_except, ret.
  destruct (api_json env h (claims_params qid)) as [r|e]; [| reflexivity].
  destruct (py_get r "claims" (JObj [])) as [c|e]; [| reflexivity].
  destruct (py_in "P154" c) as [p|e]; [| reflexivity].
  destruct p; cbn [negb]; [| reflexivity].
  destruct (py_getitem c "P154") as [v1|e]; [| reflexivity].
  destruct (py_getitem0 v1) as [v2|e]; [| reflexivity].
  destruct (py_getitem v2 "mainsnak") as [v3|e]; [| reflexivity].
  destruct (py_getitem v3 "datavalue") as [v4|e]; [| reflexivity].
  destruct (py_getitem v4 "value") as [v5|e]; reflexivity.
Qed.

(** The value of a fetch whose response is an object with claims that hold
    members. *)
Lemma logo_of_claims claims h :
  is_container claims = true ->
  (present <- lift (py_in "P154" claims) ;;
   if negb present then ret JNull
   else
     try_except
       (p154 <- lift (py_getitem claims "P154") ;;
        first <- lift (py_getitem0 p154) ;;
        mainsnak <- lift (py_getitem first "mainsnak") ;;
        datavalue <- lift (py_getitem mainsnak "datavalue") ;;
        filename <- lift (py_getitem datavalue "value") ;;
        ret filename)
       (fun _ => ret JNull)) h
  = (Ok (match logo_value claims with Some v => v | None => JNull end), h).
Proof.
  intro Hc. unfold bind, lift, try_except, ret.
  destruct claims as [| | | |s|l|c]; try discriminate; cbn [py_in logo_value].
  - destruct (is_substring (lit "P154") s); reflexivity.
  - destruct (existsb _ l); reflexivity.
  - cbn [py_getitem]. change (lit "P154") with (lit "P154").
    destruct (dict_lookup (lit "P154") c) as [p|]; cbn [negb]; [| reflexivity].
    destruct p as [| | | |s|l|f]; cbn [py_getitem0]; try reflexivity.
    + destruct s; reflexivity.
    + destruct l as [|first rest]; [reflexivity |].
      destruct first as [| | | | | |ff]; cbn [py_getitem]; try reflexivity.
      destruct (dict_lookup (lit "mainsnak") ff) as [ms|]; [| reflexivity].
      destruct ms as [| | | | | |mf]; cbn [py_getitem]; try reflexivity.
      destruct (dict_lookup (lit "datavalue") mf) as [dv|]; [| reflexivity].
      destruct dv as [| | | | | |df]; cbn [py_getitem]; try reflexivity.
      destruct (dict_lookup (lit "value") df); reflexivity.
Qed.

(** X1. When the API answers with an object whose claims member (an empty
    dict when missing) is a dict, a list or a str, the fetch makes its one
    request, raises nothing and returns the value at
    claims.P154[0].mainsnak.datavalue.value if every step of that path is
    there, None otherwise: a missing P154, an empty list of claims, a first
    claim without mainsnak, datavalue or value all give None. *)
Theorem wikidata_get_logo_filename_value (qid : json) (h : hist) fields :
  api_json env h (claims_params qid) = Ok (JObj fields) ->
  is_container (claims_of fields) = true ->
  wikidata_get_logo_filename env qid h
  = (Ok (match logo_value (claims_of fields) with Some v => v | None => JNull end),
     h ++ [EvApi (claims_params qid)]).
Proof.
  intros Hres Hc. unfold wikidata_get_logo_filename.
  unfold bind at 1, api_get at 1, perform at 1. rewrite Hres.
  unfold bind at 1, lift at 1. cbn [py_get]. fold (claims_of fields).
  apply logo_of_claims. exact Hc.
Qed.

(** X2. A response that is not an object makes the fetch raise an
    AttributeError, and claims that are null, a boolean or a number make it
    raise a TypeError: these two anomalies are not turned into None.  The
    request was made all the same. *)
Theorem wikidata_get_logo_filename_raises (qid : json) (h : hist) :
  (forall response,
     api_json env h (claims_params qid) = Ok response ->
     is_object response = false ->
     exists msg,
       wikidata_get_logo_filename env qid h
       = (Raise (Exception "AttributeError" msg), h ++ [EvApi (claims_params qid)]))
  /\ (forall fields,
        api_json env h (claims_params qid) = Ok (JObj fields) ->
        is_container (claims_of fields) = false ->
        exists msg,
          wikidata_get_logo_filename env qid h
          = (Raise (Exception "TypeError" msg), h ++ [EvApi (claims_params qid)])).
Proof.
  split.
  - intros response Hres Hobj. unfold wikidata_get_logo_filename.
    unfold bind at 1, api_get at 1, perform at 1. rewrite Hres.
    unfold bind at 1, lift at 1.
    destruct response; try discriminate; cbn [py_get]; eexists; reflexivity.
  - intros fields Hres Hc. unfold wikidata_get_logo_filename.
    unfold bind at 1, api_get at 1, perform at 1. rewrite Hres.
    unfold bind at 1, lift at 1. cbn [py_get]. fold (claims_of fields).
    unfold bind at 1, lift at 1.
    destruct (claims_of fields); try discriminate; cbn [py_in];
      eexists; reflexivity.
Qed.

Lemma candidate_ids_objects entries :
  candidate_ids (map JObj entries) = Ok (truthy_ids entries).
Proof.
  induction entries as [|fields more IH]; simpl.
  - reflexivity.
  - destruct (dict_lookup (lit "id") fields) as [v|]; simpl.
    + destruct (truthy v); rewrite IH; reflexivity.
    + exact IH.
Qed.

Lemma candidate_ids_malformed entries :
  Exists (fun entry => is_object entry = false) entries ->
  exists msg, candidate_ids entries = Raise (Exception "AttributeError" msg).
Proof.
  induction 1 as [entry more Hbad | entry more _ IH].
  - destruct entry; try discriminate; simpl; eexists; reflexivity.
  - destruct IH as [msg IH]. simpl.
    destruct entry; simpl; try (eexists; reflexivity).
    rewrite IH.
    destruct (dict_lookup (lit "id") fields) as [v|]; simpl.
    + destruct (truthy v); eexists; reflexivity.
    + eexists; reflexivity.
Qed.

(** X3. When the API answers with an object whose search member is a list of
    objects, the search returns, in the order of the list, the id of every
    entry whose id passes the truth test; entries without an id, or with an
    empty or null id, are skipped.  The whole list is taken, however long:
    the limit is sent with the request and not applied to the answer.  An
    object without a search member gives no candidate. *)
Theorem wikidata_search_candidates_ids (name language : str) (limit : Z) (h : hist) fields :
  api_json env h (search_params name language limit) = Ok (JObj fields) ->
  (forall entries,
     dict_lookup (lit "search") fields = Some (JArr (map JObj entries)) ->
     wikidata_search_candidates env name language limit h
     = (Ok (truthy_ids entries), h ++ [EvApi (search_params name language limit)]))
  /\ (dict_lookup (lit "search") fields = None ->
      wikidata_search_candidates env name language limit h
      = (Ok [], h ++ [EvApi (search_params name language limit)])).
Proof.
  intro Hres. split.
  - intros entries Hs. unfold wikidata_search_candidates.
    unfold bind at 1, api_get at 1, perform at 1. rewrite Hres.
    unfold bind, lift. cbn [py_get]. rewrite Hs. cbn [py_iter].
    rewrite candidate_ids_objects. reflexivity.
  - intro Hs. unfold wikidata_search_candidates.
    unfold bind at 1, api_get at 1, perform at 1. rewrite Hres.
    unfold bind, lift. cbn [py_get]. rewrite Hs. reflexivity.
Qed.

(** X4. When the search member is a list and one of its entries, anywhere in
    the list, is not an object, the search raises an AttributeError and
    returns no candidate at all, not even those of the well-formed
    entries. *)
Theorem wikidata_search_candidates_malformed
    (name language : str) (limit : Z) (h : hist) fields entries :
  api_json env h (search_params name language limit) = Ok (JObj fields) ->
  dict_lookup (lit "search") fields = Some (JArr entries) ->
  Exists (fun entry => is_object entry = false) entries ->
  exists msg,
    wikidata_search_candidates env name language limit h
    = (Raise (Exception "AttributeError" msg),
       h ++ [EvApi (search_params name language limit)]).
Proof.
  intros Hres Hs Hbad.
  destruct (candidate_ids_malformed _ Hbad) as [msg Hc]. exists msg.
  unfold wikidata_search_candidates.
  unfold bind at 1, api_get at 1, perform at 1. rewrite Hres.
  unfold bind, lift. cbn [py_get]. rewrite Hs. cbn [py_iter].
  rewrite Hc. reflexivity.
Qed.

End Api.

(** ** File names and the brand file *)

Lemma strip_length (s : str) : (List.length (strip s) <= List.length s)%nat.
Proof.
  destruct (strip_spec s) as (pre & post & Heq & _).
  rewrite Heq at 2. rewrite !length_app. lia.
Qed.

Lemma strip_keeps (P : N -> Prop) (s : str) : Forall P s -> Forall P (strip s).
Proof.
  intro H. destruct (strip_spec s) as (pre & post & Heq & _).
  rewrite Heq in H. apply Forall_app in H. destruct H as [_ H].
  apply Forall_app in H. destruct H as [H _]. exact H.
Qed.

Lemma re_sub_underscore_clean (name : str) :
  Forall (fun c => SAFE_FILENAME_PATTERN c = false) (re_sub_underscore name).
Proof.
  unfold re_sub_underscore. induction name as [|c name IH]; simpl.
  - constructor.
  - constructor; [| exact IH].
    destruct (SAFE_FILENAME_PATTERN c) eqn:Hc; [reflexivity | exact Hc].
Qed.

(** X5. Whatever the name, the sanitized name holds none of the nine unsafe
    characters, has no whitespace at either end and is no longer than the
    name; and sanitizing a sanitized name changes nothing. *)
Theorem sanitize_filename_clean (name : str) :
  Forall (fun c => SAFE_FILENAME_PATTERN c = false) (sanitize_filename name)
  /\ trimmed (sanitize_filename name)
  /\ (List.length (sanitize_filename name) <= List.length name)%nat
  /\ sanitize_filename (sanitize_filename name) = sanitize_filename name.
Proof.
  assert (Hclean : Forall (fun c => SAFE_FILENAME_PATTERN c = false)
                     (sanitize_filename name)).
  { apply strip_keeps. apply re_sub_underscore_clean. }
  split; [exact Hclean | split; [| split]].
  - apply strip_trimmed.
  - unfold sanitize_filename.
    etransitivity; [apply strip_length |].
    unfold re_sub_underscore. rewrite length_map. lia.
  - unfold sanitize_filename at 1.
    rewrite (re_sub_underscore_safe _ Hclean).
    apply strip_fixed. apply strip_trimmed.
Qed.

Lemma re_sub_underscore_trimmed (name : str) :
  trimmed name -> trimmed (re_sub_underscore name).
Proof.
  intros [Hhead Hlast]. unfold re_sub_underscore. split.
  - intros c rest H. destruct name as [|x name]; [discriminate |].
    simpl in H. injection H as <- _.
    destruct (SAFE_FILENAME_PATTERN x); [reflexivity | exact (Hhead x name eq_refl)].
  - intros c init H.
    destruct (rev name) as [|x rname] eqn:Hrev.
    + apply (f_equal (@rev N)) in Hrev. rewrite rev_involutive in Hrev.
      subst name. destruct init; discriminate.
    + apply (f_equal (@rev N)) in Hrev. rewrite rev_involutive in Hrev.
      simpl in Hrev. subst name.
      rewrite map_app in H. simpl in H.
      apply app_inj_tail in H. destruct H as [_ <-].
      destruct (SAFE_FILENAME_PATTERN x); [reflexivity |].
      exact (Hlast x (rev rname) eq_refl).
Qed.

(** X6. For a name without whitespace at either end, as the reader returns
    them, sanitizing replaces each unsafe character by an underscore and
    nothing else: the length is kept, so the file name of a non-empty brand
    is never the bare extension. *)
Theorem sanitize_filename_trimmed (brand : str) :
  trimmed brand ->
  sanitize_filename brand
  = map (fun c => if SAFE_FILENAME_PATTERN c then 95%N else c) brand
  /\ List.length (sanitize_filename brand) = List.length brand
  /\ (brand <> [] -> sanitize_filename brand <> []).
Proof.
  intro Ht.
  assert (Heq : sanitize_filename brand = re_sub_underscore brand).
  { unfold sanitize_filename. apply strip_fixed.
    apply re_sub_underscore_trimmed. exact Ht. }
  split; [exact Heq | split].
  - rewrite Heq. unfold re_sub_underscore. apply length_map.
  - intros Hne He. rewrite Heq in He. unfold re_sub_underscore in He.
    destruct brand; [contradiction | discriminate].
Qed.

Lemma strip_app_LF (b : str) :
  b <> [] -> trimmed b -> strip (b ++ [10%N]) = b.
Proof.
  intros Hne [Hhead Hlast]. unfold strip.
  assert (Hl : lstrip (b ++ [10%N]) = b ++ [10%N]).
  { destruct b as [|c b]; [contradiction |]. simpl.
    rewrite (Hhead c b eq_refl). reflexivity. }
  rewrite Hl. unfold rstrip. rewrite rev_app_distr. simpl.
  rewrite lstrip_fixed; [apply rev_involutive |].
  intros c rest Hr. apply (Hlast c (rev rest)).
  rewrite <- (rev_involutive b), Hr. reflexivity.
Qed.

(** A name on one line, ended by a line terminator and followed by text that
    does not start with LF, is the first line of the text. *)
Lemma file_lines_first (b eol rest : str) :
  Forall (fun c => c <> 10%N /\ c <> 13%N) b ->
  eol = [10%N] \/ eol = [13%N; 10%N] \/ eol = [13%N] ->
  (forall c rest', rest = c :: rest' -> c <> 10%N) ->
  file_lines (b ++ eol ++ rest) = (b ++ [10%N]) :: file_lines rest.
Proof.
  intros Hb Heol Hrest. induction Hb as [|c b [Hc1 Hc2] _ IH].
  - simpl. destruct Heol as [-> | [-> | ->]]; simpl; try reflexivity.
    destruct rest as [|d rest']; [reflexivity |].
    destruct (N.eqb_spec d 10) as [E|_]; [| reflexivity].
    exfalso. exact (Hrest d rest' eq_refl E).
  - cbn [app file_lines].
    destruct (N.eqb_spec c 10) as [E|_]; [contradiction |].
    destruct (N.eqb_spec c 13) as [E|_]; [contradiction |].
    rewrite IH. reflexivity.
Qed.

Lemma brand_file_head eol brands c rest :
  Forall line_brand brands ->
  brand_file eol brands = c :: rest -> c <> 10%N.
Proof.
  intros Hall H. destruct brands as [|b more]; [discriminate |].
  inversion Hall as [|? ? (Hne & [Hhead _] & _) _]; subst.
  destruct b as [|x b]; [contradiction |].
  simpl in H. injection H as <- _.
  intro E. pose proof (Hhead x b eq_refl) as Hs. rewrite E in Hs. discriminate.
Qed.

Lemma brands_of_brand_file eol brands :
  eol = [10%N] \/ eol = [13%N; 10%N] \/ eol = [13%N] ->
  Forall line_brand brands ->
  brands_of_lines (file_lines (brand_file eol brands)) = brands.
Proof.
  intros Heol Hall. induction Hall as [|b more Hb Hmore IH].
  - reflexivity.
  - cbn [brand_file].
    destruct Hb as (Hne & Ht & Hhash & Hline).
    rewrite (file_lines_first b eol _ Hline Heol)
      by (intros c rest' E; exact (brand_file_head eol more c rest' Hmore E)).
    cbn [brands_of_lines]. rewrite (strip_app_LF b Hne Ht), Hhash.
    destruct b; [contradiction |]. simpl. rewrite IH. reflexivity.
Qed.

(** X7. A brand file written from a list of names, one per line with LF, CR
    LF or CR after each, is read back as that very list, when every name is
    non-empty, has no whitespace at either end, does not start with the hash
    sign and holds no line break: nothing is dropped, merged, reordered or
    deduplicated, and a hash sign inside a name is kept. *)
Theorem read_brands_round_trip (env : Env) (path eol : str) (brands : list str) (h : hist) :
  eol = [10%N] \/ eol = [13%N; 10%N] \/ eol = [13%N] ->
  Forall line_brand brands ->
  fs_read_text env h path = Ok (brand_file eol brands) ->
  read_brands env path h = (Ok brands, h ++ [EvOpen path]).
Proof.
  intros Heol Hall Hread.
  unfold read_brands, bind, perform, ret. rewrite Hread.
  rewrite (brands_of_brand_file eol brands Heol Hall). reflexivity.
Qed.

(** ** The pipeline and the driver *)

Section PipelineMore.

Context (env : Env) {lib : PyLib}.

Lemma to_png_128_size (b : bytes) canvas :
  to_png_128 b = Ok (Some canvas) -> width canvas = 128 /\ height canvas = 128.
Proof.
  unfold to_png_128.
  destruct (image_open_rgba b) as [img|e]; [| discriminate].
  destruct (ImageOps_contain img (max_w, max_h)) as [img'|e]; [| discriminate].
  intro H. injection H as <-. split; reflexivity.
Qed.

(** X8. A success record is only ever produced at the end of the whole
    pipeline: the resolver returned an entity, the attribute fetch a
    filename, the download a non-empty content, the normalizer a canvas of
    128 by 128 made from that content, and the save of that canvas to the
    file of the brand, the last event, did not raise.  The record is then
    (brand, True, OK). *)
Theorem process_brand_success (brand : str) (h : hist) b msg h' :
  process_brand env brand h = (Ok (b, true, msg), h') ->
  b = brand /\ msg = lit "OK"
  /\ exists qid h1 filename h2 content h3 canvas,
       wikidata_search_entity env brand h = (Ok qid, h1) /\ truthy qid = true
       /\ wikidata_get_logo_filename env qid h1 = (Ok filename, h2)
       /\ truthy filename = true
       /\ download_commons_raster env filename h2 = (Ok (Some content), h3)
       /\ content <> []
       /\ to_png_128 content = Ok (Some canvas)
       /\ width canvas = 128 /\ height canvas = 128
       /\ image_save env h3 (out_path env brand) canvas = Ok tt
       /\ h' = h3 ++ [EvSave (out_path env brand) canvas].
Proof.
  intro Hp.
  destruct (wikidata_search_entity env brand h) as [[qid|e] h1] eqn:Hs.
  2:{ rewrite (process_brand_error_resolution env _ _ _ _ Hs) in Hp. discriminate. }
  destruct (truthy qid) eqn:Hq.
  2:{ rewrite (process_brand_no_entity env _ _ _ _ Hs Hq) in Hp. discriminate. }
  destruct (wikidata_get_logo_filename env qid h1) as [[f|e] h2] eqn:Hl.
  2:{ rewrite (process_brand_error_fetch env _ _ _ _ _ _ Hs Hq Hl) in Hp. discriminate. }
  destruct (truthy f) eqn:Hf.
  2:{ rewrite (process_brand_no_logo env _ _ _ _ _ _ Hs Hq Hl Hf) in Hp. discriminate. }
  destruct (download_commons_raster env f h2) as [[c|e] h3] eqn:Hd.
  2:{ rewrite (process_brand_error_download env _ _ _ _ _ _ _ _ Hs Hq Hl Hf Hd) in Hp.
      discriminate. }
  destruct (bytes_truthy c) eqn:Hb.
  2:{ rewrite (process_brand_download_failed env _ _ _ _ _ _ _ _ Hs Hq Hl Hf Hd Hb) in Hp.
      discriminate. }
  destruct c as [c|]; [| discriminate].
  destruct (to_png_128 c) as [[canvas|]|e] eqn:Hc.
  - rewrite (process_brand_saved env _ _ _ _ _ _ _ _ _ Hs Hq Hl Hf Hd Hb Hc) in Hp.
    destruct (image_save env h3 (out_path env brand) canvas) as [[]|e] eqn:Hw;
      [| discriminate].
    injection Hp as <- <- <-.
    destruct (to_png_128_size _ _ Hc) as [Hw128 Hh128].
    split; [reflexivity | split; [reflexivity |]].
    exists qid, h1, f, h2, c, h3, canvas.
    repeat split; try assumption.
    intro E. subst c. discriminate.
  - rewrite (process_brand_conversion_failed env _ _ _ _ _ _ _ _ Hs Hq Hl Hf Hd Hb Hc) in Hp.
    discriminate.
  - rewrite (process_brand_error_normalize env _ _ _ _ _ _ _ _ _ Hs Hq Hl Hf Hd Hb Hc) in Hp.
    discriminate.
Qed.

(** X9. A thumbnail request that succeeds with an empty body ends the brand
    with Download failed: an empty content counts as no content, and since
    the request did not raise, the file path endpoint is not tried. *)
Theorem process_brand_empty_content (brand : str) (h : hist) qid h1 filename h2 quoted :
  wikidata_search_entity env brand h = (Ok qid, h1) ->
  truthy qid = true ->
  wikidata_get_logo_filename env qid h1 = (Ok filename, h2) ->
  truthy filename = true ->
  url_quote filename = Ok quoted ->
  http_content env h2 (COMMONS_THUMB quoted 1024) = Ok [] ->
  process_brand env brand h
  = (Ok (brand, false, lit "Download failed"),
     h2 ++ [EvGet (COMMONS_THUMB quoted 1024)]).
Proof.
  intros Hs Hq Hl Hf Hquote Hget.
  apply (process_brand_download_failed env _ _ _ _ _ _ (Some []) _ Hs Hq Hl Hf);
    [| reflexivity].
  unfold download_commons_raster, bind, lift, try_except, session_get, perform, ret.
  rewrite Hquote. cbv beta iota. rewrite Hget. reflexivity.
Qed.

(** X10. A run that cannot create the output directory, or cannot read the
    brand file, ends with that exception: nothing is requested, written or
    printed, not even the summary line.  The directory is created before
    the file is read. *)
Theorem main_fatal (h : hist) :
  (forall e,
     fs_mkdir env h (OUTPUT_DIR env) = Raise e ->
     main env h = (Raise e, h ++ [EvMkdir (OUTPUT_DIR env)]))
  /\ (forall u e,
        fs_mkdir env h (OUTPUT_DIR env) = Ok u ->
        fs_read_text env (h ++ [EvMkdir (OUTPUT_DIR env)]) (BRANDS_FILE env) = Raise e ->
        main env h
        = (Raise e, h ++ [EvMkdir (OUTPUT_DIR env); EvOpen (BRANDS_FILE env)])).
Proof.
  split.
  - intros e Hmk. unfold main, bind at 1, perform at 1. rewrite Hmk. reflexivity.
  - intros u e Hmk Hrd. unfold main.
    unfold bind at 1, perform at 1. rewrite Hmk.
    unfold read_brands. unfold bind at 1. unfold bind at 1, perform at 1.
    rewrite Hrd, <- app_assoc. reflexivity.
Qed.

Lemma first_with_logo_requests cands h r h' :
  first_with_logo env cands h = (r, h') ->
  exists fetched unfetched,
    cands = fetched ++ unfetched
    /\ h' = h ++ map (fun q => EvApi (claims_params q)) fetched
    /\ (r = Ok None -> unfetched = []).
Proof.
  revert h. induction cands as [|c cands IH]; intros h H.
  - simpl in H. injection H as <- <-. exists [], []. simpl.
    rewrite app_nil_r. auto.
  - cbn [first_with_logo] in H. unfold bind in H.
    pose proof (wikidata_get_logo_filename_request env c h) as Hreq.
    destruct (wikidata_get_logo_filename env c h) as [[f|e] h1]; simpl in Hreq; subst h1.
    + destruct (truthy f).
      * injection H as <- <-. exists [c], cands. repeat split. discriminate.
      * destruct (IH _ H) as (fetched & unfetched & -> & -> & Hnone).
        exists (c :: fetched), unfetched. simpl. rewrite <- app_assoc. auto.
    + injection H as <- <-. exists [c], cands. repeat split. discriminate.
Qed.

(** X11. When the Turkish search returns at least one candidate, the English
    label is never searched: after the one search the resolver only fetches
    the logo attribute of candidates, each at most once and in list order,
    stopping at the first that has one; and the entity it returns is one of
    those candidates, never None. *)
Theorem wikidata_search_entity_footprint (name : str) (h : hist) first rest h1 :
  wikidata_search_candidates env name (lit "tr") 15 h = (Ok (first :: rest), h1) ->
  (exists fetched unfetched,
     first :: rest = fetched ++ unfetched
     /\ snd (wikidata_search_entity env name h)
        = h ++ EvApi (search_params name (lit "tr") 15)
            :: map (fun q => EvApi (claims_params q)) fetched)
  /\ (forall qid h',
        wikidata_search_entity env name h = (Ok qid, h') ->
        In qid (first :: rest) /\ truthy qid = true).
Proof.
  intro Hc.
  pose proof (wikidata_search_candidates_request env name (lit "tr") 15 h) as Hreq.
  rewrite Hc in Hreq. simpl in Hreq. subst h1.
  pose proof (wikidata_search_candidates_truthy env _ _ _ _ _ _ Hc) as Hall.
  rewrite Forall_forall in Hall.
  unfold wikidata_search_entity. cbn [search_langs].
  rewrite (bind_Ok _ _ _ _ _ Hc). unfold bind.
  destruct (first_with_logo env (first :: rest)
              (h ++ [EvApi (search_params name (lit "tr") 15)]))
    as [[found|e] h2] eqn:Hf;
    destruct (first_with_logo_requests _ _ _ _ Hf) as (fetched & unfetched & Hsplit & -> & _).
  - split.
    + exists fetched, unfetched. split; [exact Hsplit |].
      destruct found; simpl; rewrite <- app_assoc; reflexivity.
    + intros qid h' H. destruct found as [q|].
      * injection H as <- _.
        pose proof (first_with_logo_member env _ _ _ _ Hf) as Hin.
        split; [exact Hin | exact (Hall _ Hin)].
      * injection H as <- _. split; [left; reflexivity |].
        apply Hall. left. reflexivity.
  - split.
    + exists fetched, unfetched. split; [exact Hsplit |].
      simpl. rewrite <- app_assoc. reflexivity.
    + intros qid h' H. discriminate.
Qed.

Lemma wikidata_get_logo_filename_stable qid h h' :
  stable_api env ->
  fst (wikidata_get_logo_filename env qid h) = fst (wikidata_get_logo_filename env qid h').
Proof.
  intro Hst.
  unfold wikidata_get_logo_filename, bind, api_get, perform, lift, try_except, ret.
  rewrite (Hst h h').
  destruct (api_json env h' (claims_params qid)) as [r|e]; [| reflexivity].
  destruct (py_get r "claims" (JObj [])) as [c|e]; [| reflexivity].
  destruct (py_in "P154" c) as [p|e]; [| reflexivity].
  destruct p; cbn [negb]; [| reflexivity].
  destruct (py_getitem c "P154") as [v1|e]; [| reflexivity].
  destruct (py_getitem0 v1) as [v2|e]; [| reflexivity].
  destruct (py_getitem v2 "mainsnak") as [v3|e]; [| reflexivity].
  destruct (py_getitem v3 "datavalue") as [v4|e]; [| reflexivity].
  destruct (py_getitem v4 "value") as [v5|e]; reflexivity.
Qed.

(** X12. Against an API whose answers do not depend on the history, a brand
    for which the resolver found a Turkish candidate with a logo never ends
    with No Wikidata item found or No logo: the attribute is fetched a second
    time for the entity returned, gives the same filename, and the brand ends
    with Download failed, Conversion failed, OK or an Error. *)
Theorem process_brand_logo_found (brand : str) (h : hist) pre qid post h1 h2 filename h3 :
  stable_api env ->
  wikidata_search_candidates env brand (lit "tr") 15 h = (Ok (pre ++ qid :: post), h1) ->
  logoless_scan env pre h1 = Some h2 ->
  wikidata_get_logo_filename env qid h2 = (Ok filename, h3) ->
  truthy filename = true ->
  wikidata_get_logo_filename env qid h3
  = (Ok filename, h3 ++ [EvApi (claims_params qid)])
  /\ exists r h',
       process_brand env brand h = (Ok r, h')
       /\ brand_of r = brand
       /\ (snd r = lit "Download failed" \/ snd r = lit "Conversion failed"
           \/ snd r = lit "OK" \/ exists e, snd r = lit "Error: " ++ exn_str e).
Proof.
  intros Hst Hc Hscan Hfetch Ht.
  assert (Hs : wikidata_search_entity env brand h = (Ok qid, h3)).
  { unfold wikidata_search_entity. eapply search_langs_logo; eassumption. }
  assert (Hq : truthy qid = true).
  { pose proof (wikidata_search_candidates_truthy env _ _ _ _ _ _ Hc) as Hall.
    rewrite Forall_forall in Hall. apply Hall.
    apply in_or_app. right. left. reflexivity. }
  assert (Hl : wikidata_get_logo_filename env qid h3
               = (Ok filename, h3 ++ [EvApi (claims_params qid)])).
  { pose proof (wikidata_get_logo_filename_stable qid h3 h2 Hst) as Hv.
    pose proof (wikidata_get_logo_filename_request env qid h3) as Hh.
    rewrite Hfetch in Hv. simpl in Hv.
    destruct (wikidata_get_logo_filename env qid h3) as [r hx].
    simpl in Hv, Hh. subst. reflexivity. }
  split; [exact Hl |].
  destruct (download_commons_raster env filename (h3 ++ [EvApi (claims_params qid)]))
    as [[c|e] h4] eqn:Hd.
  2:{ eexists _, _. split;
        [exact (process_brand_error_download env _ _ _ _ _ _ _ _ Hs Hq Hl Ht Hd) |].
      split; [reflexivity |]. right. right. right. exists e. reflexivity. }
  destruct (bytes_truthy c) eqn:Hb.
  2:{ eexists _, _. split;
        [exact (process_brand_download_failed env _ _ _ _ _ _ _ _ Hs Hq Hl Ht Hd Hb) |].
      split; [reflexivity |]. left. reflexivity. }
  destruct c as [c|]; [| discriminate].
  destruct (to_png_128 c) as [[canvas|]|e] eqn:Hcv.
  - pose proof (process_brand_saved env _ _ _ _ _ _ _ _ _ Hs Hq Hl Ht Hd Hb Hcv) as Hp.
    destruct (image_save env h4 (out_path env brand) canvas) as [[]|e];
      eexists _, _; (split; [exact Hp |]); (split; [reflexivity |]).
    + right. right. left. reflexivity.
    + right. right. right. exists e. reflexivity.
  - eexists _, _. split;
      [exact (process_brand_conversion_failed env _ _ _ _ _ _ _ _ Hs Hq Hl Ht Hd Hb Hcv) |].
    split; [reflexivity |]. right. left. reflexivity.
  - eexists _, _. split;
      [exact (process_brand_error_normalize env _ _ _ _ _ _ _ _ _ Hs Hq Hl Ht Hd Hb Hcv) |].
    split; [reflexivity |]. right. right. right. exists e. reflexivity.
Qed.

End PipelineMore.

(** ** When the normalizer fails, and the shape of a run *)

Section NormalizerMore.

Context {lib : PyLib}.

(** X13. The normalizer returns None exactly when the bytes cannot be
    decoded.  For a decoded image with positive sides the only exception
    that leaves it is the resizer's ValueError, and only for an image with
    one side more than 112 times the other. *)
Theorem to_png_128_failure (b : bytes) :
  (to_png_128 b = Ok None <-> exists e, image_open_rgba b = Raise e)
  /\ (forall img e,
        image_open_rgba b = Ok img -> 0 < width img -> 0 < height img ->
        to_png_128 b = Raise e ->
        e = Exception "ValueError" (lit "height and width must be > 0")
        /\ (112 * height img < width img \/ 112 * width img < height img)).
Proof.
  split.
  - unfold to_png_128. split.
    + destruct (image_open_rgba b) as [img|e]; [| eauto].
      destruct (ImageOps_contain img (max_w, max_h)); discriminate.
    + intros [e ->]. reflexivity.
  - intros img e Hd Hw Hh Hrun. unfold to_png_128 in Hrun. rewrite Hd in Hrun.
    change (max_w, max_h) with (112, 112) in Hrun.
    destruct (ImageOps_contain img (112, 112)) as [img'|e'] eqn:Hc; [discriminate |].
    injection Hrun as ->. split.
    + destruct (ImageOps_contain_size img Hw Hh) as (a & c & Heq & _).
      rewrite Heq in Hc. unfold Image_resize in Hc. cbn [fst snd] in Hc.
      destruct ((a =? width img) && (c =? height img))%bool; [discriminate |].
      destruct (((a <? 1) || (c <? 1)) && resize_refuses_empty)%bool; [| discriminate].
      injection Hc as <-. reflexivity.
    + destruct (Z.lt_ge_cases (112 * height img) (width img)) as [|H1]; [left; assumption |].
      destruct (Z.lt_ge_cases (112 * width img) (height img)) as [|H2]; [right; assumption |].
      destruct (ImageOps_contain_returns img Hw Hh H1 H2) as [img' Hok].
      rewrite Hok in Hc. discriminate.
Qed.

(** X14. A decoded image with one side more than 224 times the other never
    gives a logo: its shorter side scales to zero pixels.  When the resizer
    refuses a side of zero pixels (Pillow up to 12.3) its ValueError leaves
    the normalizer; when it takes one (Pillow 13) the normalizer returns a
    canvas on which every pixel is transparent. *)
Theorem to_png_128_refuses_hairlines (b : bytes) (img : image) :
  image_open_rgba b = Ok img -> 0 < width img -> 0 < height img ->
  224 * height img < width img \/ 224 * width img < height img ->
  (resize_refuses_empty = true ->
   to_png_128 b = Raise (Exception "ValueError" (lit "height and width must be > 0")))
  /\ (resize_refuses_empty = false ->
      exists canvas,
        to_png_128 b = Ok (Some canvas)
        /\ width canvas = 128 /\ height canvas = 128
        /\ forall x y, pixel canvas x y = transparent).
Proof.
  intros Hd Hw Hh Hlong.
  destruct (ImageOps_contain_size img Hw Hh) as (a & c & Heq & Hwide & Htall).
  unfold scaled_side in Hwide, Htall.
  assert (Hzero : (a = 112 /\ c = 0) \/ (a = 0 /\ c = 112)).
  { destruct Hlong as [Hl|Hl].
    - destruct Hwide as [-> Hs]; [lia |]. left. split; [reflexivity | nia].
    - destruct Htall as [-> Hs]; [lia |]. right. split; [nia | reflexivity]. }
  assert (Hdiff : ((a =? width img) && (c =? height img))%bool = false).
  { destruct Hzero as [[_ ->] | [-> _]].
    - destruct (Z.eqb_spec 0 (height img)); [lia | apply andb_false_r].
    - destruct (Z.eqb_spec 0 (width img)); [lia | reflexivity]. }
  assert (Hsmall : ((a <? 1) || (c <? 1))%bool = true).
  { destruct Hzero as [[_ ->] | [-> _]]; [apply orb_true_r | reflexivity]. }
  unfold to_png_128. rewrite Hd. change (max_w, max_h) with (112, 112).
  rewrite Heq. unfold Image_resize. cbn [fst snd]. rewrite Hdiff, Hsmall.
  split; intros ->; cbn [andb].
  - reflexivity.
  - eexists. split; [reflexivity |]. split; [reflexivity |]. split; [reflexivity |].
    intros x y. cbn [Image_paste pixel Image_new width height fst snd].
    match goal with |- (if ?cond then _ else _) = _ => destruct cond eqn:E end;
      [| reflexivity].
    exfalso.
    repeat (apply andb_true_iff in E; destruct E as [E ?]).
    apply Z.leb_le in E. apply Z.ltb_lt in H. apply Z.leb_le in H0.
    apply Z.ltb_lt in H1.
    destruct Hzero as [[_ ->] | [-> _]]; lia.
Qed.

End NormalizerMore.

Section Shape.

Context (env : Env) {lib : PyLib}.

Lemma download_commons_raster_gets filename h r h' :
  download_commons_raster env filename h = (r, h') ->
  exists gets, h' = h ++ gets /\ Forall is_get gets /\ (List.length gets <= 2)%nat.
Proof.
  unfold download_commons_raster, bind, lift, try_except, session_get, perform, ret.
  destruct (url_quote filename) as [q|e].
  - destruct (http_content env h (COMMONS_THUMB q 1024)) as [c|e].
    + intro H. injection H as _ <-. exists [EvGet (COMMONS_THUMB q 1024)].
      repeat split; [repeat constructor | simpl; lia].
    + destruct (http_content env (h ++ [EvGet (COMMONS_THUMB q 1024)]) (COMMONS_FILEPATH q));
        intro H; injection H as _ <-;
        exists [EvGet (COMMONS_THUMB q 1024); EvGet (COMMONS_FILEPATH q)];
        rewrite <- app_assoc;
        (repeat split; [repeat constructor | simpl; lia]).
  - intro H. injection H as _ <-. exists []. rewrite app_nil_r.
    repeat split; [constructor | simpl; lia].
Qed.

(** X15. Whatever happens to a brand, the events of its processing come in
    the order of the stages: first requests to the API only, then at most
    two downloads, then at most one save, to the file of the brand.  No API
    request follows a download, and nothing follows the save. *)
Theorem process_brand_order (brand : str) (h : hist) :
  exists r apis gets saves,
    process_brand env brand h = (Ok r, h ++ apis ++ gets ++ saves)
    /\ Forall is_api apis
    /\ Forall is_get gets /\ (List.length gets <= 2)%nat
    /\ (saves = [] \/ exists canvas, saves = [EvSave (out_path env brand) canvas]).
Proof.
  destruct (wikidata_search_entity env brand h) as [[qid|e] h1] eqn:Hs;
    destruct (wikidata_search_entity_emits env brand _ _ _ Hs) as [evs1 [-> F1]].
  2:{ eexists _, evs1, [], [].
      rewrite (process_brand_error_resolution env _ _ _ _ Hs), !app_nil_r.
      repeat split; auto. }
  destruct (truthy qid) eqn:Hq.
  2:{ eexists _, evs1, [], [].
      rewrite (process_brand_no_entity env _ _ _ _ Hs Hq), !app_nil_r.
      repeat split; auto. }
  destruct (wikidata_get_logo_filename env qid (h ++ evs1)) as [[f|e] h2] eqn:Hl;
    destruct (wikidata_get_logo_filename_emits env qid _ _ _ Hl) as [evs2 [-> F2]].
  2:{ eexists _, (evs1 ++ evs2), [], [].
      rewrite (process_brand_error_fetch env _ _ _ _ _ _ Hs Hq Hl), !app_nil_r, app_assoc.
      repeat split; auto. apply Forall_app; auto. }
  assert (F12 : Forall is_api (evs1 ++ evs2)) by (apply Forall_app; auto).
  destruct (truthy f) eqn:Hf.
  2:{ eexists _, (evs1 ++ evs2), [], [].
      rewrite (process_brand_no_logo env _ _ _ _ _ _ Hs Hq Hl Hf), !app_nil_r, app_assoc.
      repeat split; auto. }
  destruct (download_commons_raster env f ((h ++ evs1) ++ evs2)) as [[c|e] h3] eqn:Hd;
    destruct (download_commons_raster_gets _ _ _ _ Hd) as (gets & -> & F3 & Hlen).
  2:{ eexists _, (evs1 ++ evs2), gets, [].
      rewrite (process_brand_error_download env _ _ _ _ _ _ _ _ Hs Hq Hl Hf Hd).
      rewrite !app_nil_r, <- !app_assoc. repeat split; auto. }
  destruct (bytes_truthy c) eqn:Hb.
  2:{ eexists _, (evs1 ++ evs2), gets, [].
      rewrite (process_brand_download_failed env _ _ _ _ _ _ _ _ Hs Hq Hl Hf Hd Hb).
      rewrite !app_nil_r, <- !app_assoc. repeat split; auto. }
  destruct c as [c|]; [| discriminate].
  destruct (to_png_128 c) as [[canvas|]|e] eqn:Hc.
  - pose proof (process_brand_saved env _ _ _ _ _ _ _ _ _ Hs Hq Hl Hf Hd Hb Hc) as Hp.
    destruct (image_save env _ (out_path env brand) canvas) as [[]|e];
      eexists _, (evs1 ++ evs2), gets, [EvSave (out_path env brand) canvas];
      rewrite Hp, <- !app_assoc;
      (split; [reflexivity |]); repeat split; auto; right; exists canvas; reflexivity.
  - eexists _, (evs1 ++ evs2), gets, [].
    rewrite (process_brand_conversion_failed env _ _ _ _ _ _ _ _ Hs Hq Hl Hf Hd Hb Hc).
    rewrite !app_nil_r, <- !app_assoc. repeat split; auto.
  - eexists _, (evs1 ++ evs2), gets, [].
    rewrite (process_brand_error_normalize env _ _ _ _ _ _ _ _ _ Hs Hq Hl Hf Hd Hb Hc).
    rewrite !app_nil_r, <- !app_assoc. repeat split; auto.
Qed.

(** X16. A brand file with no name in it (only blank lines and comments, or
    nothing) gives a run that makes no request and writes no file: after the
    directory and the file, the only event is the print of the summary line
    with two zeros; main returns 1 when the console takes that line, and the
    exception of print leaves main otherwise. *)
Theorem main_no_brand (h : hist) (text : str) :
  fs_mkdir env h (OUTPUT_DIR env) = Ok tt ->
  fs_read_text env (h ++ [EvMkdir (OUTPUT_DIR env)]) (BRANDS_FILE env) = Ok text ->
  filter kept_line (file_lines text) = [] ->
  main env h
  = (match console_print env (started env h) (lit "Done. Success: 0, Fail: 0") with
     | Ok _ => Ok 1
     | Raise e => Raise e
     end,
     h ++ [EvMkdir (OUTPUT_DIR env); EvOpen (BRANDS_FILE env);
           EvPrint (lit "Done. Success: 0, Fail: 0")]).
Proof.
  intros Hmk Hrd Hnone. unfold main.
  unfold bind at 1, perform at 1. rewrite Hmk.
  unfold read_brands. unfold bind at 1. unfold bind at 1, perform at 1.
  rewrite Hrd. unfold ret at 1.
  rewrite brands_of_lines_filter, Hnone. simpl map.
  unfold bind, main_loop, ret, print, perform.
  rewrite <- !app_assoc. simpl app. fold (started env h).
  change (summary_line 0 0) with (lit "Done. Success: 0, Fail: 0").
  destruct (console_print env (started env h) (lit "Done. Success: 0, Fail: 0"));
    unfold started; rewrite <- ?app_assoc; reflexivity.
Qed.

End Shape.

(** ** The further properties at work on the sample worlds *)

Lemma trimmedb_sound (s : str) : trimmedb s = true -> trimmed s.
Proof.
  unfold trimmedb. intro H. apply andb_true_iff in H. destruct H as [H1 H2]. split.
  - intros c rest ->. apply negb_true_iff. exact H1.
  - intros c init ->. rewrite rev_app_distr in H2. simpl in H2.
    apply negb_true_iff. exact H2.
Qed.

Lemma line_brandb_sound (b : str) : line_brandb b = true -> line_brand b.
Proof.
  unfold line_brandb. intro H.
  repeat (apply andb_true_iff in H; destruct H as [H ?]).
  repeat split.
  - intro E. subst b. discriminate.
  - apply (trimmedb_sound b); assumption.
  - apply (trimmedb_sound b); assumption.
  - apply negb_true_iff. assumption.
  - apply Forall_forall. intros c Hin.
    rewrite forallb_forall in H0. specialize (H0 c Hin).
    apply andb_true_iff in H0. destruct H0 as [Ha Hb].
    apply negb_true_iff in Ha, Hb.
    apply N.eqb_neq in Ha, Hb. split; assumption.
Qed.

(** X1 at work: the logo of Q1. *)
Lemma wikidata_get_logo_filename_value_witness :
  wikidata_get_logo_filename acme_world (JStr (lit "Q1")) []
  = (Ok (JStr (lit "Acme_logo.svg")), [EvApi (claims_params (JStr (lit "Q1")))]).
Proof.
  exact (wikidata_get_logo_filename_value acme_world (JStr (lit "Q1")) []
           (logo_fields "Acme_logo.svg") eq_refl eq_refl).
Defined.

(** X2 at work: a list instead of an object, and claims that are null. *)
Lemma wikidata_get_logo_filename_raises_witness :
  (exists msg,
     wikidata_get_logo_filename (answering_world (JArr [])) (JStr (lit "Q1")) []
     = (Raise (Exception "AttributeError" msg), [EvApi (claims_params (JStr (lit "Q1")))]))
  /\ (exists msg,
        wikidata_get_logo_filename
          (answering_world (JObj [(lit "claims", JNull)])) (JStr (lit "Q1")) []
        = (Raise (Exception "TypeError" msg), [EvApi (claims_params (JStr (lit "Q1")))])).
Proof.
  split.
  - exact (proj1 (wikidata_get_logo_filename_raises (answering_world (JArr []))
                    (JStr (lit "Q1")) []) (JArr []) eq_refl eq_refl).
  - exact (proj2 (wikidata_get_logo_filename_raises
                    (answering_world (JObj [(lit "claims", JNull)]))
                    (JStr (lit "Q1")) []) [(lit "claims", JNull)] eq_refl eq_refl).
Defined.

(** X3 at work: the two Turkish candidates, in order. *)
Lemma wikidata_search_candidates_ids_witness :
  wikidata_search_candidates two_candidates_world (lit "Acme") (lit "tr") 15 []
  = (Ok [JStr (lit "Q5"); JStr (lit "Q7")],
     [EvApi (search_params (lit "Acme") (lit "tr") 15)]).
Proof.
  exact (proj1 (wikidata_search_candidates_ids two_candidates_world
                  (lit "Acme") (lit "tr") 15 []
                  [(lit "search", JArr (map JObj (candidate_entries ["Q5"; "Q7"])))]
                  eq_refl)
           (candidate_entries ["Q5"; "Q7"]) eq_refl).
Defined.

(** X4 at work: a string among the entries. *)
Lemma wikidata_search_candidates_malformed_witness :
  exists msg,
    wikidata_search_candidates
      (answering_world
         (JObj [(lit "search", JArr [JObj [(lit "id", JStr (lit "Q1"))]; JStr (lit "Q2")])]))
      (lit "Acme") (lit "tr") 15 []
    = (Raise (Exception "AttributeError" msg),
       [EvApi (search_params (lit "Acme") (lit "tr") 15)]).
Proof.
  apply (wikidata_search_candidates_malformed
           (answering_world
              (JObj [(lit "search",
                      JArr [JObj [(lit "id", JStr (lit "Q1"))]; JStr (lit "Q2")])]))
           (lit "Acme") (lit "tr") 15 []
           [(lit "search", JArr [JObj [(lit "id", JStr (lit "Q1"))]; JStr (lit "Q2")])]
           [JObj [(lit "id", JStr (lit "Q1"))]; JStr (lit "Q2")] eq_refl eq_refl).
  apply Exists_cons_tl. apply Exists_cons_hd. reflexivity.
Defined.

(** X6 at work: a slash in a trimmed name. *)
Lemma sanitize_filename_trimmed_witness :
  sanitize_filename (lit "A#1 / B") = lit "A#1 _ B".
Proof.
  exact (proj1 (sanitize_filename_trimmed (lit "A#1 / B")
                  (trimmedb_sound (lit "A#1 / B") eq_refl))).
Defined.

(** X7 at work: two names, each ended by CR LF. *)
Lemma read_brands_round_trip_witness :
  read_brands two_brands_world (BRANDS_FILE two_brands_world) []
  = (Ok two_brands, [EvOpen (BRANDS_FILE two_brands_world)]).
Proof.
  apply (read_brands_round_trip two_brands_world (BRANDS_FILE two_brands_world)
           [13%N; 10%N] two_brands []).
  - right. left. reflexivity.
  - apply Forall_cons; [apply line_brandb_sound; reflexivity |].
    apply Forall_cons; [apply line_brandb_sound; reflexivity | apply Forall_nil].
  - reflexivity.
Defined.

(** X8 at work: the canvas saved for Acme Corp. *)
Lemma process_brand_success_witness :
  exists content canvas,
    to_png_128 content = Ok (Some canvas) /\ width canvas = 128 /\ height canvas = 128
    /\ snd (process_brand acme_world (lit "Acme Corp") [])
       = [EvApi (search_params (lit "Acme Corp") (lit "tr") 15);
          EvApi (claims_params (JStr (lit "Q1")));
          EvApi (claims_params (JStr (lit "Q1")));
          EvGet (COMMONS_THUMB (lit "Acme_logo.svg") 1024);
          EvSave (out_path acme_world (lit "Acme Corp")) canvas].
Proof.
  assert (Hrun : process_brand acme_world (lit "Acme Corp") []
                 = (Ok (lit "Acme Corp", true, lit "OK"),
                    snd (process_brand acme_world (lit "Acme Corp") [])))
    by (vm_compute; reflexivity).
  destruct (process_brand_success acme_world _ _ _ _ _ Hrun)
    as (_ & _ & qid & h1 & f & h2 & content & h3 & canvas
        & Hs & _ & Hl & _ & Hd & _ & Hc & Hw & Hh & _ & Hh').
  exists content, canvas. repeat split; try assumption.
  rewrite Hh'.
  assert (E3 : h3 = snd (download_commons_raster acme_world f h2)) by (rewrite Hd; reflexivity).
  assert (E2 : (f, h2) = (JStr (lit "Acme_logo.svg"),
                          [EvApi (search_params (lit "Acme Corp") (lit "tr") 15);
                           EvApi (claims_params (JStr (lit "Q1")));
                           EvApi (claims_params (JStr (lit "Q1")))])).
  { assert (E1 : (qid, h1) = (JStr (lit "Q1"),
                              [EvApi (search_params (lit "Acme Corp") (lit "tr") 15);
                               EvApi (claims_params (JStr (lit "Q1")))])).
    { assert (Hs' : wikidata_search_entity acme_world (lit "Acme Corp") []
                    = (Ok (JStr (lit "Q1")),
                       [EvApi (search_params (lit "Acme Corp") (lit "tr") 15);
                        EvApi (claims_params (JStr (lit "Q1")))])) by reflexivity.
      rewrite Hs' in Hs. injection Hs as <- <-. reflexivity. }
    injection E1 as -> ->.
    assert (Hl' : wikidata_get_logo_filename acme_world (JStr (lit "Q1"))
                    [EvApi (search_params (lit "Acme Corp") (lit "tr") 15);
                     EvApi (claims_params (JStr (lit "Q1")))]
                  = (Ok (JStr (lit "Acme_logo.svg")),
                     [EvApi (search_params (lit "Acme Corp") (lit "tr") 15);
                      EvApi (claims_params (JStr (lit "Q1")));
                      EvApi (claims_params (JStr (lit "Q1")))])) by reflexivity.
    rewrite Hl' in Hl. injection Hl as <- <-. reflexivity. }
  injection E2 as -> ->. rewrite E3. reflexivity.
Defined.

(** X9 at work: an empty thumbnail. *)
Lemma process_brand_empty_content_witness :
  process_brand empty_body_world (lit "Acme Corp") []
  = (Ok (lit "Acme Corp", false, lit "Download failed"),
     [EvApi (search_params (lit "Acme Corp") (lit "tr") 15);
      EvApi (claims_params (JStr (lit "Q1")));
      EvApi (claims_params (JStr (lit "Q1")));
      EvGet (COMMONS_THUMB (lit "Acme_logo.svg") 1024)]).
Proof.
  apply (process_brand_empty_content empty_body_world (lit "Acme Corp") []
           (JStr (lit "Q1"))
           [EvApi (search_params (lit "Acme Corp") (lit "tr") 15);
            EvApi (claims_params (JStr (lit "Q1")))]
           (JStr (lit "Acme_logo.svg"))
           [EvApi (search_params (lit "Acme Corp") (lit "tr") 15);
            EvApi (claims_params (JStr (lit "Q1")));
            EvApi (claims_params (JStr (lit "Q1")))]
           (lit "Acme_logo.svg")); reflexivity.
Defined.

(** X10 at work: no brand file. *)
Lemma main_fatal_witness :
  main unreadable_world []
  = (Raise (Exception "FileNotFoundError" (lit "No such file or directory")),
     [EvMkdir (OUTPUT_DIR unreadable_world); EvOpen (BRANDS_FILE unreadable_world)]).
Proof.
  exact (proj2 (main_fatal unreadable_world []) tt _ eq_refl eq_refl).
Defined.

(** X11 at work: both Turkish candidates are fetched, English is not
    searched. *)
Lemma wikidata_search_entity_footprint_witness :
  exists fetched unfetched,
    [JStr (lit "Q5"); JStr (lit "Q7")] = fetched ++ unfetched
    /\ snd (wikidata_search_entity two_candidates_world (lit "Acme") [])
       = [] ++ EvApi (search_params (lit "Acme") (lit "tr") 15)
            :: map (fun q => EvApi (claims_params q)) fetched.
Proof.
  assert (Hc : wikidata_search_candidates two_candidates_world (lit "Acme") (lit "tr") 15 []
               = (Ok [JStr (lit "Q5"); JStr (lit "Q7")],
                  [EvApi (search_params (lit "Acme") (lit "tr") 15)])) by reflexivity.
  exact (proj1 (wikidata_search_entity_footprint two_candidates_world
                  (lit "Acme") [] _ _ _ Hc)).
Defined.

(** X12 at work: the second fetch of Q7 gives the same filename. *)
Lemma process_brand_logo_found_witness :
  wikidata_get_logo_filename two_candidates_world (JStr (lit "Q7"))
    [EvApi (search_params (lit "Acme") (lit "tr") 15);
     EvApi (claims_params (JStr (lit "Q5")));
     EvApi (claims_params (JStr (lit "Q7")))]
  = (Ok (JStr (lit "Acme_logo.svg")),
     [EvApi (search_params (lit "Acme") (lit "tr") 15);
      EvApi (claims_params (JStr (lit "Q5")));
      EvApi (claims_params (JStr (lit "Q7")))]
     ++ [EvApi (claims_params (JStr (lit "Q7")))]).
Proof.
  assert (Hst : stable_api two_candidates_world) by (intros h h' params; reflexivity).
  apply (proj1 (process_brand_logo_found two_candidates_world (lit "Acme") []
                  [JStr (lit "Q5")] (JStr (lit "Q7")) []
                  [EvApi (search_params (lit "Acme") (lit "tr") 15)]
                  [EvApi (search_params (lit "Acme") (lit "tr") 15);
                   EvApi (claims_params (JStr (lit "Q5")))]
                  (JStr (lit "Acme_logo.svg"))
                  [EvApi (search_params (lit "Acme") (lit "tr") 15);
                   EvApi (claims_params (JStr (lit "Q5")));
                   EvApi (claims_params (JStr (lit "Q7")))]
                  Hst eq_refl eq_refl eq_refl eq_refl)).
Defined.

(** X13 at work: the exception of the 448 by 1 raster. *)
Lemma to_png_128_failure_witness :
  112 * height (decoded hairline_448x1) < width (decoded hairline_448x1)
  \/ 112 * width (decoded hairline_448x1) < height (decoded hairline_448x1).
Proof.
  assert (Hd : image_open_rgba hairline_448x1 = Ok (decoded hairline_448x1))
    by reflexivity.
  assert (Hrun : to_png_128 hairline_448x1
                 = Raise (Exception "ValueError" (lit "height and width must be > 0")))
    by reflexivity.
  exact (proj2 (proj2 (to_png_128_failure hairline_448x1) _ _ Hd eq_refl eq_refl Hrun)).
Defined.

(** X14 at work: a raster of 448 by 1, with the resizer that refuses. *)
Lemma to_png_128_refuses_hairlines_witness :
  to_png_128 hairline_448x1
  = Raise (Exception "ValueError" (lit "height and width must be > 0")).
Proof.
  assert (Hd : image_open_rgba hairline_448x1 = Ok (decoded hairline_448x1))
    by reflexivity.
  apply (proj1 (to_png_128_refuses_hairlines hairline_448x1 (decoded hairline_448x1) Hd
                  eq_refl eq_refl (or_introl eq_refl))).
  reflexivity.
Defined.

(** X16 at work: a brand file with a comment and blank lines. *)
Lemma main_no_brand_witness :
  main comment_world []
  = (Ok 1, [EvMkdir (OUTPUT_DIR comment_world); EvOpen (BRANDS_FILE comment_world);
            EvPrint (lit "Done. Success: 0, Fail: 0")]).
Proof.
  exact (main_no_brand comment_world [] comment_text eq_refl eq_refl eq_refl).
Defined.
